(** * Fundability engine: scoring, validation and batch processing

    A shallow embedding of [lib/scoring-engine.ts], [lib/validation.ts] and
    the batch loop of [lib/batch-processor.ts], together with the properties
    the specification states about them.

    JavaScript numbers are IEEE 754 binary64 values.  They are modelled by
    [spec_float] at precision 53 and maximal exponent 1024, so that the
    comparisons, the products with the weights and the rounding of the
    aggregate score are the ones the engine really performs. *)

From Stdlib Require Import ZArith QArith Qround List String Ascii Bool Lia Lqa.
From Stdlib Require Import DecimalString.
From Stdlib Require Import Floats.SpecFloat.
Import ListNotations.

Local Open Scope list_scope.
Local Open Scope string_scope.
Local Open Scope Z_scope.

(* ================================================================== *)
(** ** JavaScript numbers *)
(* ================================================================== *)

Module Js.

Definition prec : Z := 53.
Definition emax : Z := 1024.

(** A [number] is a binary64 value. *)
Definition number : Type := spec_float.

Definition NaN : number := S754_nan.

(** The number denoted by an integer literal (exact below 2^53). *)
Definition Z2F (z : Z) : number := binary_normalize prec emax z 0 false.

(** The number denoted by a decimal literal of value [n / d], that is the
    binary64 value nearest to that rational (division is correctly rounded
    and both [n] and [d] are exact). *)
Definition dec (n : Z) (d : Z) : number := SFdiv prec emax (Z2F n) (Z2F d).

Definition add (x y : number) : number := SFadd prec emax x y.
Definition sub (x y : number) : number := SFsub prec emax x y.
Definition mul (x y : number) : number := SFmul prec emax x y.

(** Relational operators; each of them is [false] when an operand is NaN. *)
Definition lt (x y : number) : bool := SFltb x y.
Definition le (x y : number) : bool := SFleb x y.
Definition gt (x y : number) : bool := SFltb y x.
Definition ge (x y : number) : bool := SFleb y x.
(** [===] on two numbers. *)
Definition eq (x y : number) : bool := SFeqb x y.

(** Structural equality of representations, used to compare results. *)
Definition same (x y : number) : bool :=
  match x, y with
  | S754_zero a, S754_zero b => Bool.eqb a b
  | S754_infinity a, S754_infinity b => Bool.eqb a b
  | S754_nan, S754_nan => true
  | S754_finite a m e, S754_finite b n f =>
      Bool.eqb a b && Pos.eqb m n && Z.eqb e f
  | _, _ => false
  end.

(** The integer part of a finite number (0 for the others). *)
Definition trunc (x : number) : Z :=
  match x with
  | S754_finite s m e =>
      let v := if s then Z.neg m else Z.pos m in
      if 0 <=? e then v * 2 ^ e else Z.quot v (2 ^ (- e))
  | _ => 0
  end.

(** The integer that a number is, when it is the number of an integer
    literal. *)
Definition to_integer (x : number) : option Z :=
  if same x (Z2F (trunc x)) then Some (trunc x) else None.

(** The rational value of a finite number, in lowest terms (0 for the
    others). *)
Definition F2Q (x : number) : Q :=
  match x with
  | S754_finite s m e =>
      let v := if s then Z.neg m else Z.pos m in
      match e with
      | Z0 => inject_Z v
      | Z.pos p => inject_Z (v * 2 ^ Z.pos p)
      | Z.neg p => Qred (Qmake v (2 ^ p))
      end
  | _ => 0%Q
  end.

(** The number [n / 4], exact for the [n] of interest. *)
Definition quarters (n : Z) : number := binary_normalize prec emax n (-2) false.

(** [floor (x + 1/2)] for the finite number [(-1)^s * m * 2^e]. *)
Definition round_half_up (s : bool) (m : positive) (e : Z) : Z :=
  let v := if s then Z.neg m else Z.pos m in
  if 0 <=? e then v * 2 ^ e
  else (2 * v + 2 ^ (- e)) / 2 ^ (1 - e).

(** [Math.round]: the nearest integer, ties towards +infinity; a result of
    zero keeps the sign of the argument. *)
Definition Math_round (x : number) : number :=
  match x with
  | S754_finite s m e =>
      let n := round_half_up s m e in
      if n =? 0 then S754_zero s else Z2F n
  | _ => x
  end.

(** [Math.max] and [Math.min] of two numbers: NaN is contagious and
    [-0] is below [+0]. *)
Definition Math_max (x y : number) : number :=
  match x, y with
  | S754_nan, _ | _, S754_nan => S754_nan
  | S754_zero a, S754_zero b => S754_zero (a && b)
  | _, _ => if lt x y then y else x
  end.

Definition Math_min (x y : number) : number :=
  match x, y with
  | S754_nan, _ | _, S754_nan => S754_nan
  | S754_zero a, S754_zero b => S754_zero (a || b)
  | _, _ => if lt y x then y else x
  end.

(** [Number.isInteger]. *)
Definition Number_isInteger (x : number) : bool :=
  match x with
  | S754_zero _ => true
  | S754_finite _ m e =>
      if 0 <=? e then true else (Z.pos m mod 2 ^ (- e) =? 0)
  | _ => false
  end.

(** *** Number::toString

    The decimal rendering of a number in a template literal: the shortest
    digit string that reads back as the same binary64 value, laid out as
    ECMAScript prescribes. *)

Definition pow10 (n : Z) : Q :=
  if 0 <=? n then inject_Z (10 ^ n) else Qmake 1 (Z.to_pos (10 ^ (- n))).

Definition pow2 (n : Z) : Q :=
  if 0 <=? n then inject_Z (2 ^ n) else Qmake 1 (Z.to_pos (2 ^ (- n))).

Fixpoint magnitude_up (fuel : nat) (v : Q) (n : Z) : Z :=
  match fuel with
  | O => n
  | S f => if Qle_bool (pow10 n) v then magnitude_up f v (n + 1) else n
  end.

Fixpoint magnitude_down (fuel : nat) (v : Q) (n : Z) : Z :=
  match fuel with
  | O => n
  | S f => if Qle_bool (pow10 (n - 1)) v then n else magnitude_down f v (n - 1)
  end.

(** The [n] with [10^(n-1) <= v < 10^n], for [v] a positive binary64 value. *)
Definition magnitude (v : Q) : Z :=
  if Qle_bool 1 v then magnitude_up 400 v 1 else magnitude_down 400 v 0.

Definition Qlt_bool (a b : Q) : bool := negb (Qle_bool b a).

Section Shortest.
(** The positive number [m * 2^e]. *)
Variables (m : positive) (e : Z).

Let v : Q := (inject_Z (Z.pos m) * pow2 e)%Q.
(** Half-way points to the neighbouring binary64 values. *)
Let hi : Q := (inject_Z (2 * Z.pos m + 1) * pow2 (e - 1))%Q.
Let lo : Q :=
  if (Z.pos m =? 2 ^ 52) && (-1074 <? e)
  then (inject_Z (4 * Z.pos m - 1) * pow2 (e - 2))%Q
  else (inject_Z (2 * Z.pos m - 1) * pow2 (e - 1))%Q.

(** Does the decimal [d] round to this number (ties to the even mantissa)? *)
Definition reads_back (d : Q) : bool :=
  if Z.even (Z.pos m)
  then Qle_bool lo d && Qle_bool d hi
  else Qlt_bool lo d && Qlt_bool d hi.

(** The digits [s] and the exponent [n], trying [k], [k+1], ... digits. *)
Fixpoint shortest (fuel : nat) (k : Z) : Z * Z :=
  let n := magnitude v in
  let g := pow10 (n - k) in
  let s0 := Qfloor (v / g) in
  let s1 := s0 + 1 in
  let ok0 := reads_back (inject_Z s0 * g) in
  let ok1 := reads_back (inject_Z s1 * g) in
  let d0 := (v - inject_Z s0 * g)%Q in
  let d1 := (inject_Z s1 * g - v)%Q in
  let s :=
    if ok0 && ok1 then
      if Qlt_bool d0 d1 then Some s0
      else if Qlt_bool d1 d0 then Some s1
      else if Z.even s0 then Some s0 else Some s1
    else if ok0 then Some s0
    else if ok1 then Some s1
    else None in
  match s, fuel with
  | Some s, _ => if s =? 10 ^ k then (1, n + 1) else (s, n)
  | None, S f => shortest f (k + 1)
  | None, O => (s0, n)
  end.
End Shortest.

Definition digits_of (z : Z) : string :=
  DecimalString.NilZero.string_of_uint (N.to_uint (Z.to_N z)).

Fixpoint zeros (n : nat) : string :=
  match n with O => EmptyString | S n => String "0" (zeros n) end.

Definition Number_toString_pos (m : positive) (e : Z) : string :=
  let '(s, n) := shortest m e 20 1 in
  let digits := digits_of s in
  let k := Z.of_nat (String.length digits) in
  if (k <=? n) && (n <=? 21) then
    digits ++ zeros (Z.to_nat (n - k))
  else if (0 <? n) && (n <=? 21) then
    substring 0 (Z.to_nat n) digits ++ "." ++
    substring (Z.to_nat n) (Z.to_nat (k - n)) digits
  else if (-6 <? n) && (n <=? 0) then
    "0." ++ zeros (Z.to_nat (- n)) ++ digits
  else
    let expo := (if n - 1 <? 0 then "-" else "+") ++ digits_of (Z.abs (n - 1)) in
    if k =? 1 then digits ++ "e" ++ expo
    else substring 0 1 digits ++ "." ++
         substring 1 (Z.to_nat (k - 1)) digits ++ "e" ++ expo.

Definition Number_toString (x : number) : string :=
  match x with
  | S754_nan => "NaN"
  | S754_zero _ => "0"
  | S754_infinity false => "Infinity"
  | S754_infinity true => "-Infinity"
  | S754_finite false m e => Number_toString_pos m e
  | S754_finite true m e => "-" ++ Number_toString_pos m e
  end.

End Js.

Import Js.

Declare Scope js_scope.
Delimit Scope js_scope with js.
Bind Scope js_scope with spec_float Js.number.

(** Integer literals of the source are written as numerals: in [js_scope]
    the numeral [n] stands for the number [Z2F n]. *)
Number Notation spec_float Js.Z2F Js.to_integer : js_scope.

Notation "x <. y" := (Js.lt x y) (at level 65, no associativity) : js_scope.
Notation "x <=. y" := (Js.le x y) (at level 65, no associativity) : js_scope.
Notation "x >. y" := (Js.gt x y) (at level 65, no associativity) : js_scope.
Notation "x >=. y" := (Js.ge x y) (at level 65, no associativity) : js_scope.
Notation "x ===. y" := (Js.eq x y) (at level 65, no associativity) : js_scope.
Notation "x +. y" := (Js.add x y) (at level 50, left associativity) : js_scope.
Notation "x -. y" := (Js.sub x y) (at level 50, left associativity) : js_scope.
Notation "x *. y" := (Js.mul x y) (at level 40, left associativity) : js_scope.

Local Open Scope js_scope.

(* ================================================================== *)
(** ** The scoring engine: subscores ([lib/scoring-engine.ts]) *)
(* ================================================================== *)

Definition calculateCreditScoreSubscore (score : option number) : number :=
  match score with
  | None => 40
  | Some score =>
      if score >=. 750 then 95
      else if score >=. 720 then 90
      else if score >=. 680 then 80
      else if score >=. 640 then 65
      else if score >=. 600 then 45
      else if score >=. 550 then 30
      else 15
  end.

Definition calculateUtilizationSubscore (utilization : number) : number :=
  if utilization <. 10 then 95
  else if utilization <. 30 then 90
  else if utilization <. 50 then 75
  else if utilization <. 75 then 50
  else if utilization <. 90 then 30
  else 15.

Definition calculateDTISubscore (dti : option number) : number :=
  match dti with
  | None => 55
  | Some dti =>
      if dti <. 25 then 95
      else if dti <. 35 then 85
      else if dti <. 45 then 70
      else if dti <. 55 then 45
      else 25
  end.

Definition calculateInquirySubscore (inquiries : number) : number :=
  if inquiries <=. 1 then 95
  else if inquiries <=. 3 then 80
  else if inquiries <=. 5 then 60
  else if inquiries <=. 8 then 35
  else 20.

Definition calculateDepthMixSubscore (oldestYears tradelines : number) : number :=
  if (oldestYears >=. 10) && (tradelines >=. 6) then 95
  else if (oldestYears >=. 7) && (tradelines >=. 4) then 85
  else if (oldestYears >=. 3) && (tradelines >=. 3) then 70
  else 45.

Definition calculatePenaltyPoints (bkOrMajorEvent : bool) (recentDerogs : number)
  : number :=
  let penalty := 0 in
  let penalty := if bkOrMajorEvent then penalty -. 25 else penalty in
  let penalty :=
    if recentDerogs >=. 3 then penalty -. 20
    else if recentDerogs >=. 1 then penalty -. 10
    else penalty in
  Math_max penalty (-35).

Record Subscores : Type := mkSubscores {
  creditScoreSubscore : number;
  utilizationSubscore : number;
  dtiSubscore : number;
  inquirySubscore : number;
  depthMixSubscore : number;
  penaltyPoints : number
}.

Module weights.
Definition credit : number := dec 30 100.
Definition utilization : number := dec 25 100.
Definition dti : number := dec 20 100.
Definition inquiry : number := dec 10 100.
Definition depthMix : number := dec 10 100.
(** Declared by the source and never read. *)
Definition penalty : number := dec 5 100.
End weights.

Definition calculateWeightedScore (subscores : Subscores) : number :=
  let weightedSum :=
    subscores.(creditScoreSubscore) *. weights.credit +.
    subscores.(utilizationSubscore) *. weights.utilization +.
    subscores.(dtiSubscore) *. weights.dti +.
    subscores.(inquirySubscore) *. weights.inquiry +.
    subscores.(depthMixSubscore) *. weights.depthMix in
  let rawScore := weightedSum +. subscores.(penaltyPoints) in
  Math_max 0 (Math_min 100 (Math_round rawScore)).

(* ================================================================== *)
(** ** Untyped values and records *)
(* ================================================================== *)

(** A string is modelled by the sequence of its code units, each of them
    below 256; the literals of the source are copied as they are. *)

#[warnings="-register-all"]
Inductive any : Type :=
| JUndefined
| JNull
| JBool (b : bool)
| JNum (x : number)
| JStr (s : string)
| JArr (items : list any)
| JObj (props : list (string * any)).

(** An object seen as the list of its own properties. *)
Definition record : Type := list (string * any).

Definition typeof (v : any) : string :=
  match v with
  | JUndefined => "undefined"
  | JNull => "object"
  | JBool _ => "boolean"
  | JNum _ => "number"
  | JStr _ => "string"
  | JArr _ => "object"
  | JObj _ => "object"
  end.

(** ToBoolean. *)
Definition truthy (v : any) : bool :=
  match v with
  | JUndefined | JNull => false
  | JBool b => b
  | JNum (S754_zero _) | JNum S754_nan => false
  | JNum _ => true
  | JStr s => negb (s =? EmptyString)%string
  | JArr _ | JObj _ => true
  end.

(** Property read [o.k]: [undefined] when the record has no such property. *)
Fixpoint get (o : record) (k : string) : any :=
  match o with
  | [] => JUndefined
  | (k', v) :: o => if (k' =? k)%string then v else get o k
  end.

Notation "o .[ k ]" := (get o k) (at level 1, left associativity, format "o .[ k ]").

(** Property read on any value that is not [null] or [undefined]: arrays
    and strings have a [length], other values only their own properties. *)
Definition get_any (v : any) (k : string) : any :=
  match v with
  | JObj o => o.[k]
  | JArr l => if (k =? "length")%string then JNum (Z2F (Z.of_nat (List.length l)))
              else JUndefined
  | JStr s => if (k =? "length")%string then JNum (Z2F (Z.of_nat (String.length s)))
              else JUndefined
  | _ => JUndefined
  end.

(** [a ?? b]. *)
Definition nullish (a b : any) : any :=
  match a with
  | JUndefined | JNull => b
  | _ => a
  end.

Notation "a ?? b" := (nullish a b) (at level 45, right associativity).

(** Reading a value at the type that a preceding [typeof] test established. *)
Definition the_number (v : any) : number :=
  match v with JNum x => x | _ => NaN end.
Definition the_string (v : any) : string :=
  match v with JStr s => s | _ => EmptyString end.
Definition the_boolean (v : any) : bool :=
  match v with JBool b => b | _ => false end.
Definition the_nullable (v : any) : option number :=
  match v with JNum x => Some x | _ => None end.

Definition of_nullable (o : option number) : any :=
  match o with Some x => JNum x | None => JNull end.

(** ToNumber, for the operands of a relational operator. *)
Definition ToNumber (v : any) : number :=
  match v with
  | JUndefined => NaN
  | JNull => 0
  | JBool b => if b then 1 else 0
  | JNum x => x
  | _ => NaN
  end.

(* ================================================================== *)
(** ** Regular expressions, as far as the e-mail pattern needs them *)
(* ================================================================== *)

Module Regex.

Inductive regex : Type :=
| Void
| Eps
| Class (p : ascii -> bool)
| Cat (r1 r2 : regex)
| Alt (r1 r2 : regex)
| Star (r : regex).

(** [r+] *)
Definition Plus (r : regex) : regex := Cat r (Star r).

Fixpoint nullable (r : regex) : bool :=
  match r with
  | Void => false
  | Eps => true
  | Class _ => false
  | Cat r1 r2 => nullable r1 && nullable r2
  | Alt r1 r2 => nullable r1 || nullable r2
  | Star _ => true
  end.

Fixpoint deriv (c : ascii) (r : regex) : regex :=
  match r with
  | Void | Eps => Void
  | Class p => if p c then Eps else Void
  | Cat r1 r2 =>
      if nullable r1 then Alt (Cat (deriv c r1) r2) (deriv c r2)
      else Cat (deriv c r1) r2
  | Alt r1 r2 => Alt (deriv c r1) (deriv c r2)
  | Star r1 => Cat (deriv c r1) (Star r1)
  end.

(** [/^r$/.test(s)] *)
Fixpoint test (r : regex) (s : string) : bool :=
  match s with
  | EmptyString => nullable r
  | String c s => test (deriv c r) s
  end.

(** [\s], on code units below 256. *)
Definition space (c : ascii) : bool :=
  let n := nat_of_ascii c in
  ((9 <=? n) && (n <=? 13) || (n =? 32) || (n =? 160))%nat.

Definition char (a : ascii) : regex := Class (Ascii.eqb a).

End Regex.

(* ================================================================== *)
(** ** Input validation ([lib/validation.ts]) *)
(* ================================================================== *)

Inductive PrimaryGoal : Type :=
| startup_funding
| business_funding
| debt_consolidation
| improve_credit
| lower_utilization
| raise_score_fast
| not_sure.

(** The string literal that each member of the union type stands for. *)
Definition goal_name (g : PrimaryGoal) : string :=
  match g with
  | startup_funding => "startup_funding"
  | business_funding => "business_funding"
  | debt_consolidation => "debt_consolidation"
  | improve_credit => "improve_credit"
  | lower_utilization => "lower_utilization"
  | raise_score_fast => "raise_score_fast"
  | not_sure => "not_sure"
  end.

Definition all_goals : list PrimaryGoal :=
  [startup_funding; business_funding; debt_consolidation; improve_credit;
   lower_utilization; raise_score_fast; not_sure].

Definition the_goal (v : any) : PrimaryGoal :=
  let s := the_string v in
  match List.find (fun g => (goal_name g =? s)%string) all_goals with
  | Some g => g
  | None => not_sure
  end.

Record FundabilityInput : Type := mkInput {
  (* Identity *)
  first_name : string;
  last_name : string;
  email : string;
  (* Core credit/income *)
  credit_score : option number;
  revolving_utilization_pct : number;
  dti_pct : option number;
  inquiries_6m : number;
  oldest_account_years : number;
  open_tradelines : number;
  recent_derogs_24m : number;
  bk_or_major_event : bool;
  (* Funding context *)
  requested_amount : number;
  primary_goal : PrimaryGoal;
  (* Optional property and meta: copied from the body, never inspected *)
  estimated_home_value : any;
  mortgage_balance : any;
  source : any;
  external_contact_id : any
}.

Record ValidationResult : Type := mkResult {
  valid : bool;
  data : option FundabilityInput;
  errors : option (list string)
}.

(** [/^[^\s@]+@[^\s@]+\.[^\s@]+$/] *)
Definition emailRegex : Regex.regex :=
  let not_space_at := Regex.Class (fun c => negb (Regex.space c || Ascii.eqb c "@")) in
  Regex.Cat (Regex.Plus not_space_at)
    (Regex.Cat (Regex.char "@")
      (Regex.Cat (Regex.Plus not_space_at)
        (Regex.Cat (Regex.char ".")
          (Regex.Plus not_space_at)))).

Definition isValidEmail (email : string) : bool := Regex.test emailRegex email.

Definition validGoals : list string :=
  ["startup_funding"; "business_funding"; "debt_consolidation";
   "improve_credit"; "lower_utilization"; "raise_score_fast"; "not_sure"].

(** [validGoals.includes(v)]: only a string can be the same value as one
    of the names. *)
Definition includes (l : list string) (v : any) : bool :=
  match v with
  | JStr s => existsb (String.eqb s) l
  | _ => false
  end.

(** [a.push(x)] *)
Definition push {A : Type} (a : list A) (x : A) : list A := (a ++ [x])%list.

(** [if (c) a.push(e)] *)
Definition push_if (c : bool) (e : string) (a : list string) : list string :=
  if c then push a e else a.

Definition is_type (v : any) (t : string) : bool := (typeof v =? t)%string.

(** [v === null] and [v === undefined] *)
Definition is_null_value (v : any) : bool :=
  match v with JNull => true | _ => false end.
Definition is_undefined_value (v : any) : bool :=
  match v with JUndefined => true | _ => false end.

Definition validateInput (body : record) : ValidationResult :=
  let errors : list string := [] in
  (* Required string fields *)
  let errors :=
    push_if (negb (truthy body.["first_name"])
             || negb (is_type body.["first_name"] "string"))
      "first_name is required and must be a string" errors in
  let errors :=
    push_if (negb (truthy body.["last_name"])
             || negb (is_type body.["last_name"] "string"))
      "last_name is required and must be a string" errors in
  let errors :=
    push_if (negb (truthy body.["email"])
             || negb (is_type body.["email"] "string")
             || negb (isValidEmail (the_string body.["email"])))
      "email is required and must be a valid email address" errors in
  (* Credit score (nullable) *)
  let errors :=
    push_if (negb (is_null_value body.["credit_score"])
             && negb (is_undefined_value body.["credit_score"])
             && (negb (is_type body.["credit_score"] "number")
                 || (the_number body.["credit_score"] <. 300)
                 || (the_number body.["credit_score"] >. 850)))
      "credit_score must be between 300 and 850, or null" errors in
  (* Utilization (required, 0-100) *)
  let errors :=
    push_if (negb (is_type body.["revolving_utilization_pct"] "number")
             || (the_number body.["revolving_utilization_pct"] <. 0)
             || (the_number body.["revolving_utilization_pct"] >. 100))
      "revolving_utilization_pct is required and must be between 0 and 100" errors in
  (* DTI (nullable, 0-100) *)
  let errors :=
    push_if (negb (is_null_value body.["dti_pct"])
             && negb (is_undefined_value body.["dti_pct"])
             && (negb (is_type body.["dti_pct"] "number")
                 || (the_number body.["dti_pct"] <. 0)
                 || (the_number body.["dti_pct"] >. 100)))
      "dti_pct must be between 0 and 100, or null" errors in
  (* Inquiries (default 0) *)
  let inquiries_6m := body.["inquiries_6m"] ?? JNum 0 in
  let errors :=
    push_if (negb (is_type inquiries_6m "number")
             || (the_number inquiries_6m <. 0)
             || negb (Number_isInteger (the_number inquiries_6m)))
      "inquiries_6m must be a non-negative integer" errors in
  (* Oldest account years (default 0) *)
  let oldest_account_years := body.["oldest_account_years"] ?? JNum 0 in
  let errors :=
    push_if (negb (is_type oldest_account_years "number")
             || (the_number oldest_account_years <. 0))
      "oldest_account_years must be a non-negative number" errors in
  (* Open tradelines (required) *)
  let errors :=
    push_if (negb (is_type body.["open_tradelines"] "number")
             || (the_number body.["open_tradelines"] <. 0)
             || negb (Number_isInteger (the_number body.["open_tradelines"])))
      "open_tradelines is required and must be a non-negative integer" errors in
  (* Recent derogs (default 0) *)
  let recent_derogs_24m := body.["recent_derogs_24m"] ?? JNum 0 in
  let errors :=
    push_if (negb (is_type recent_derogs_24m "number")
             || (the_number recent_derogs_24m <. 0)
             || negb (Number_isInteger (the_number recent_derogs_24m)))
      "recent_derogs_24m must be a non-negative integer" errors in
  (* BK/major event (default false) *)
  let bk_or_major_event := body.["bk_or_major_event"] ?? JBool false in
  let errors :=
    push_if (negb (is_type bk_or_major_event "boolean"))
      "bk_or_major_event must be a boolean" errors in
  (* Requested amount (required) *)
  let errors :=
    push_if (negb (is_type body.["requested_amount"] "number")
             || (the_number body.["requested_amount"] <=. 0))
      "requested_amount is required and must be a positive number" errors in
  (* Primary goal (required, enum) *)
  let errors :=
    push_if (negb (truthy body.["primary_goal"])
             || negb (includes validGoals body.["primary_goal"]))
      ("primary_goal is required and must be one of: "
       ++ String.concat ", " validGoals) errors in
  if (0 <? List.length errors)%nat then
    {| valid := false; data := None; errors := Some errors |}
  else
    (* Build validated object with defaults applied *)
    let validated := {|
      first_name := the_string body.["first_name"];
      last_name := the_string body.["last_name"];
      email := the_string body.["email"];
      credit_score := the_nullable (body.["credit_score"] ?? JNull);
      revolving_utilization_pct := the_number body.["revolving_utilization_pct"];
      dti_pct := the_nullable (body.["dti_pct"] ?? JNull);
      inquiries_6m := the_number inquiries_6m;
      oldest_account_years := the_number oldest_account_years;
      open_tradelines := the_number body.["open_tradelines"];
      recent_derogs_24m := the_number recent_derogs_24m;
      bk_or_major_event := the_boolean bk_or_major_event;
      requested_amount := the_number body.["requested_amount"];
      primary_goal := the_goal body.["primary_goal"];
      estimated_home_value := body.["estimated_home_value"] ?? JNull;
      mortgage_balance := body.["mortgage_balance"] ?? JNull;
      source := body.["source"];
      external_contact_id := body.["external_contact_id"]
    |} in
    {| valid := true; data := Some validated; errors := None |}.

(* ================================================================== *)
(** ** The scoring engine: snapshot ([lib/scoring-engine.ts]) *)
(* ================================================================== *)

Record Tier : Type := mkTier { numeric : number; label : string }.

Definition determineTier (score : number) : Tier :=
  if score >=. 85 then {| numeric := 1; label := "Tier 1 – Ready Now (Prime)" |}
  else if score >=. 70 then {| numeric := 2; label := "Tier 2 – Tune-Up Then Ready" |}
  else if score >=. 55 then {| numeric := 3; label := "Tier 3 – Optimization Required" |}
  else {| numeric := 4; label := "Tier 4 – Rehab / Long-Term Plan" |}.

(** [a.slice(0, n)] *)
Definition slice0 {A : Type} (n : nat) (a : list A) : list A := firstn n a.

Definition generateStrengths (creditScoreSubscore utilizationSubscore
                              dtiSubscore depthMixSubscore : number) : list string :=
  let strengths : list string := [] in
  let strengths := push_if (creditScoreSubscore >=. 80)
    "Strong core credit score positioning you favorably with lenders" strengths in
  let strengths := push_if (utilizationSubscore >=. 80)
    "Low revolving utilization demonstrating strong credit management" strengths in
  let strengths := push_if (dtiSubscore >=. 80)
    "Healthy debt-to-income profile showing strong repayment capacity" strengths in
  let strengths := push_if (depthMixSubscore >=. 80)
    "Established credit history with good depth and account mix" strengths in
  (* If no clear strengths, provide at least one positive note *)
  let strengths := push_if (List.length strengths =? 0)%nat
    "Active credit profile with opportunity for strategic optimization" strengths in
  slice0 3 strengths.

Definition generateRisks (utilizationSubscore dtiSubscore inquirySubscore
                          penaltyPoints : number) : list string :=
  let risks : list string := [] in
  let risks := push_if (utilizationSubscore <=. 50)
    "High utilization is suppressing score and limiting available credit" risks in
  let risks := push_if (dtiSubscore <=. 45)
    "Elevated DTI ratio is constraining approval odds and loan amounts" risks in
  let risks := push_if (inquirySubscore <=. 60)
    "Recent inquiry activity is raising risk flags with underwriters" risks in
  let risks := push_if (penaltyPoints <. 0)
    "Recent derogatory events are significantly impacting approval probability" risks in
  (* If no clear risks identified *)
  let risks := push_if (List.length risks =? 0)%nat
    "Profile requires fine-tuning to maximize funding potential" risks in
  slice0 3 risks.

Record ActionItem : Type := mkAction { priority : number; action : string }.

(** [Array.prototype.sort] with a comparator: a stable sort that puts [x]
    before [y] when [cmp y x] is positive. *)
Fixpoint sort_insert {A : Type} (cmp : A -> A -> number) (x : A) (l : list A) : list A :=
  match l with
  | [] => [x]
  | y :: l' => if cmp y x >. 0 then x :: l else y :: sort_insert cmp x l'
  end.

Definition Array_sort {A : Type} (cmp : A -> A -> number) (l : list A) : list A :=
  fold_left (fun sorted x => sort_insert cmp x sorted) l [].

Definition generateHighImpactActions (input : FundabilityInput) (subscores : Subscores)
  : list string :=
  let actions : list ActionItem := [] in
  (* High utilization *)
  let actions :=
    if subscores.(utilizationSubscore) <=. 75 then
      let priority := if subscores.(utilizationSubscore) <=. 50 then 100 else 80 in
      push actions {| priority := priority;
                     action := "Pay down revolving balances to reduce utilization below 30% - current "
                               ++ Number_toString input.(revolving_utilization_pct)
                               ++ "% is limiting approvals" |}
    else actions in
  (* High DTI *)
  let actions :=
    if subscores.(dtiSubscore) <=. 70 then
      let priority := if subscores.(dtiSubscore) <=. 45 then 95 else 75 in
      push actions {| priority := priority;
                     action := "Target paying off 1-2 highest monthly payment accounts to improve DTI and boost approval odds" |}
    else actions in
  (* Too many inquiries *)
  let actions :=
    if subscores.(inquirySubscore) <=. 60 then
      push actions {| priority := 85;
                     action := "Avoid new credit applications for 60-90 days to let "
                               ++ Number_toString input.(inquiries_6m)
                               ++ " recent inquiries age off impact period" |}
    else actions in
  (* Penalties present *)
  let actions :=
    if subscores.(penaltyPoints) <. 0 then
      push actions {| priority := 90;
                     action := "Review and dispute any inaccurate derogatory marks; negotiate payment-for-deletion on valid collections" |}
    else actions in
  (* Thin file *)
  let actions :=
    if subscores.(depthMixSubscore) <=. 70 then
      push actions {| priority := 60;
                     action := "Add 1-2 new tradelines (authorized user or credit builder loan) to strengthen credit mix and depth" |}
    else actions in
  (* Low credit score *)
  let actions :=
    if subscores.(creditScoreSubscore) <=. 65 then
      push actions {| priority := 70;
                     action := "Focus on on-time payments for next 6 months - payment history is the #1 score driver" |}
    else actions in
  (* Balance transfer opportunity *)
  let actions :=
    if (input.(revolving_utilization_pct) >=. 50)
       && (subscores.(creditScoreSubscore) >=. 65) then
      push actions {| priority := 85;
                     action := "Consider balance transfer or consolidation product to restructure expensive revolving debt at lower rates" |}
    else actions in
  (* Sort by priority and return top 5 *)
  let actions := Array_sort (fun a b => b.(priority) -. a.(priority)) actions in
  map action (slice0 5 actions).

Definition calculateFundingRange (tier : number) : string :=
  if tier ===. 1 then "Moderate–High ($50K–$150K+)"
  else if tier ===. 2 then "Moderate ($25K–$75K)"
  else if tier ===. 3 then "Low–Moderate ($10K–$50K)"
  else if tier ===. 4 then "Low ($5K–$25K)"
  else "Low".

Definition calculateOptimizedFundingRange (tier utilization dti inquiry : number)
  : string :=
  (* Check if there's clear optimization potential *)
  let hasOptimizationPotential :=
    (utilization <=. 75) || (dti <=. 70) || (inquiry <=. 60) in
  if negb hasOptimizationPotential then
    (* Already optimized, same range *)
    calculateFundingRange tier
  else
    (* Bump up one tier for optimization potential *)
    let optimizedTier := Math_max 1 (tier -. 1) in
    if optimizedTier ===. 1 then "High ($75K–$200K+)"
    else if optimizedTier ===. 2 then "Moderate–High ($50K–$125K)"
    else if optimizedTier ===. 3 then "Moderate ($25K–$75K)"
    else if optimizedTier ===. 4 then "Low–Moderate ($15K–$50K)"
    else "Moderate".

Definition pathMap (tier : number) (goal : PrimaryGoal) : string :=
  match goal with
  | startup_funding =>
      if tier >=. 3
      then "Credit optimization → secured/alternative startup capital → traditional business funding"
      else "Direct path to startup funding with credit-backed business lines and term loans"
  | business_funding =>
      if tier >=. 3
      then "Strengthen credit profile → explore revenue-based or collateral-backed options → scale to unsecured lines"
      else "Ready for unsecured business lines, equipment financing, and SBA products"
  | debt_consolidation =>
      if tier >=. 3
      then "Targeted consolidation of high-APR debt → rebuild utilization → qualify for larger business funding"
      else "Consolidate with balance transfer or personal loan → leverage improved profile for business capital"
  | improve_credit =>
      "Execute high-impact actions over 90-180 days → re-position for prime funding opportunities"
  | lower_utilization =>
      if tier >=. 3
      then "Pay down revolving debt or secure consolidation loan → improved scores unlock better funding products"
      else "Strategic utilization reduction → immediate access to expanded credit lines and funding"
  | raise_score_fast =>
      "Focus on rapid-impact tactics: utilization reduction, dispute errors, add authorized user tradelines"
  | not_sure =>
      if tier >=. 3
      then "Strengthen fundability foundation → explore funding options aligned with business goals"
      else "Strong fundability position - evaluate business vs personal funding needs and optimal structure"
  end.

Definition generateGoalPath (goal : PrimaryGoal) (tier : number) : string :=
  let path := pathMap tier goal in
  if (path =? EmptyString)%string
  then "Custom funding path based on profile optimization and business objectives"
  else path.

Record SnapshotSubscores : Type := mkSnapshotSubscores {
  credit_score_subscore : number;
  utilization_subscore : number;
  dti_subscore : number;
  inquiry_subscore : number;
  depth_mix_subscore : number;
  penalty_points : number
}.

Record Flags : Type := mkFlags {
  missing_credit_score : bool;
  missing_utilization : bool;
  missing_dti : bool;
  high_risk_profile : bool
}.

Record Meta : Type := mkMeta { version : string; generated_at : string }.

Record FundabilitySnapshot : Type := mkSnapshot {
  fundability_score : number;
  fundability_tier_numeric : number;
  fundability_tier_label : string;
  subscores : SnapshotSubscores;
  key_strengths : list string;
  key_risks : list string;
  high_impact_actions : list string;
  funding_range_now : string;
  funding_range_after_optimization : string;
  goal_path : string;
  flags : Flags;
  meta : Meta
}.

(** The wall clock as the call finds it: what [new Date().toISOString()]
    evaluates to. *)
Record Clock : Type := mkClock { Date_toISOString : string }.

Definition is_null (o : option number) : bool :=
  match o with None => true | Some _ => false end.

Definition calculateFundabilitySnapshot (clock : Clock) (input : FundabilityInput)
  : FundabilitySnapshot :=
  (* Calculate all subscores *)
  let creditScoreSubscore := calculateCreditScoreSubscore input.(credit_score) in
  let utilizationSubscore := calculateUtilizationSubscore input.(revolving_utilization_pct) in
  let dtiSubscore := calculateDTISubscore input.(dti_pct) in
  let inquirySubscore := calculateInquirySubscore input.(inquiries_6m) in
  let depthMixSubscore :=
    calculateDepthMixSubscore input.(oldest_account_years) input.(open_tradelines) in
  let penaltyPoints :=
    calculatePenaltyPoints input.(bk_or_major_event) input.(recent_derogs_24m) in
  let all := mkSubscores creditScoreSubscore utilizationSubscore dtiSubscore
                         inquirySubscore depthMixSubscore penaltyPoints in
  (* Calculate weighted fundability score *)
  let fundabilityScore := calculateWeightedScore all in
  (* Determine tier *)
  let tier := determineTier fundabilityScore in
  (* Generate insights *)
  let strengths :=
    generateStrengths creditScoreSubscore utilizationSubscore dtiSubscore depthMixSubscore in
  let risks :=
    generateRisks utilizationSubscore dtiSubscore inquirySubscore penaltyPoints in
  let actions := generateHighImpactActions input all in
  (* Funding ranges *)
  let fundingRangeNow := calculateFundingRange tier.(numeric) in
  let fundingRangeOptimized :=
    calculateOptimizedFundingRange tier.(numeric) utilizationSubscore dtiSubscore
                                   inquirySubscore in
  (* Goal path *)
  let goalPath := generateGoalPath input.(primary_goal) tier.(numeric) in
  (* Flags *)
  let flags := {|
    missing_credit_score := is_null input.(credit_score);
    missing_utilization := false;
    missing_dti := is_null input.(dti_pct);
    high_risk_profile := (tier.(numeric) ===. 4) || (penaltyPoints <=. (-20))
  |} in
  {| fundability_score := fundabilityScore;
     fundability_tier_numeric := tier.(numeric);
     fundability_tier_label := tier.(label);
     subscores := {|
       credit_score_subscore := creditScoreSubscore;
       utilization_subscore := utilizationSubscore;
       dti_subscore := dtiSubscore;
       inquiry_subscore := inquirySubscore;
       depth_mix_subscore := depthMixSubscore;
       penalty_points := penaltyPoints
     |};
     key_strengths := strengths;
     key_risks := risks;
     high_impact_actions := actions;
     funding_range_now := fundingRangeNow;
     funding_range_after_optimization := fundingRangeOptimized;
     goal_path := goalPath;
     flags := flags;
     meta := {| version := "fs_engine_v1.0";
                generated_at := clock.(Date_toISOString) |}
  |}.

(* ================================================================== *)
(** ** Batch processing ([lib/batch-processor.ts], [processBatch]) *)
(* ================================================================== *)

(** The object that a typed input is at run time. *)
Definition input_object (c : FundabilityInput) : record :=
  [ ("first_name", JStr c.(first_name));
    ("last_name", JStr c.(last_name));
    ("email", JStr c.(email));
    ("credit_score", of_nullable c.(credit_score));
    ("revolving_utilization_pct", JNum c.(revolving_utilization_pct));
    ("dti_pct", of_nullable c.(dti_pct));
    ("inquiries_6m", JNum c.(inquiries_6m));
    ("oldest_account_years", JNum c.(oldest_account_years));
    ("open_tradelines", JNum c.(open_tradelines));
    ("recent_derogs_24m", JNum c.(recent_derogs_24m));
    ("bk_or_major_event", JBool c.(bk_or_major_event));
    ("requested_amount", JNum c.(requested_amount));
    ("primary_goal", JStr (goal_name c.(primary_goal)));
    ("estimated_home_value", c.(estimated_home_value));
    ("mortgage_balance", c.(mortgage_balance));
    ("source", c.(source));
    ("external_contact_id", c.(external_contact_id)) ].

(** The object that [validateInput] returns: [data] and [errors] are
    optional properties. *)
Definition result_object (r : ValidationResult) : any :=
  JObj ([("valid", JBool r.(valid))]
        ++ match r.(data) with
           | Some d => [("data", JObj (input_object d))]
           | None => []
           end
        ++ match r.(errors) with
           | Some e => [("errors", JArr (map JStr e))]
           | None => []
           end)%list.

(** A thrown [Error], by its message. *)
Definition thrown (A : Type) : Type := (string + A)%type.

(** [v.join(sep)]: only an array has the method. *)
Definition call_join (name : string) (v : any) (sep : string) : thrown string :=
  match v with
  | JArr l => inr (String.concat sep (map the_string l))
  | _ => inl (name ++ ".join is not a function")
  end.

Record ClientRef : Type := mkClientRef { name : string; client_email : string }.

Record BatchEntry : Type := mkEntry {
  status : string;
  client : ClientRef;
  result : option FundabilitySnapshot;
  error : option string
}.

Record BatchSummary : Type := mkSummary {
  total : nat;
  successful : nat;
  failed_count : nat
}.

Record BatchResult : Type := mkBatch {
  success : list BatchEntry;
  failed : list BatchEntry;
  summary : BatchSummary
}.

(** The body of the [try] block for one client, without web hooks (the
    default configuration). *)
Definition assess (clock : Clock) (client : FundabilityInput)
  : thrown FundabilitySnapshot :=
  (* Validate input *)
  let validationErrors := result_object (validateInput (input_object client)) in
  if ToNumber (get_any validationErrors "length") >. 0 then
    match call_join "validationErrors" validationErrors ", " with
    | inl e => inl e
    | inr joined => inl ("Validation failed: " ++ joined)
    end
  else
    (* Calculate fundability *)
    inr (calculateFundabilitySnapshot clock client).

(** One element of [chunk.map(async (client) => ...)]: the [try] block and
    its [catch]. *)
Definition processClient (clock : Clock) (c : FundabilityInput) : BatchEntry :=
  let ref := {| name := c.(first_name) ++ " " ++ c.(last_name);
                client_email := c.(email) |} in
  match assess clock c with
  | inr r => {| status := "success"; client := ref; result := Some r; error := None |}
  | inl message =>
      {| status := "failed"; client := ref; result := None; error := Some message |}
  end.

(** The chunks of [concurrency] clients; [None] when the loop that builds
    them does not end (a step of zero). *)
Fixpoint split_chunks {A : Type} (fuel : nat) (concurrency : nat) (clients : list A)
  : option (list (list A)) :=
  match clients, fuel with
  | [], _ => Some []
  | _, O => None
  | _, S fuel =>
      option_map (cons (firstn concurrency clients))
                 (split_chunks fuel concurrency (skipn concurrency clients))
  end.

(** Clients are numbered in the order of the collection; [clock i] is the
    wall clock that the assessment of client [i] reads. *)
Fixpoint processChunk (clock : nat -> Clock) (i : nat) (chunk : list FundabilityInput)
  : list BatchEntry :=
  match chunk with
  | [] => []
  | c :: chunk => processClient (clock i) c :: processChunk clock (S i) chunk
  end.

Fixpoint processChunks (clock : nat -> Clock) (i : nat)
  (chunks : list (list FundabilityInput)) (success failed : list BatchEntry)
  : list BatchEntry * list BatchEntry :=
  match chunks with
  | [] => (success, failed)
  | chunk :: chunks =>
      let results := processChunk clock i chunk in
      let '(success, failed) :=
        fold_left (fun '(success, failed) r =>
                     if (r.(status) =? "success")%string
                     then (push success r, failed)
                     else (success, push failed r))
                  results (success, failed) in
      processChunks clock (i + List.length chunk)%nat chunks success failed
  end.

Definition processBatch (clock : nat -> Clock) (concurrency : nat)
  (clients : list FundabilityInput) : option BatchResult :=
  match split_chunks (List.length clients) concurrency clients with
  | None => None
  | Some chunks =>
      let '(success, failed) := processChunks clock 0 chunks [] [] in
      Some {| success := success;
              failed := failed;
              summary := {| total := List.length clients;
                            successful := List.length success;
                            failed_count := List.length failed |} |}
  end.

(* ================================================================== *)
(** ** Definitions of the specification

    What the properties below are stated with: the values a subscore can
    take, the aggregate in exact arithmetic, the tables that the binary64
    computation is checked against, the relations between inputs, the
    constraints of validation, and the sample records. *)
(* ================================================================== *)

(** *** The values a subscore can take *)

Definition credit_range : list number := [40; 95; 90; 80; 65; 45; 30; 15].
Definition utilization_range : list number := [95; 90; 75; 50; 30; 15].
Definition dti_range : list number := [55; 95; 85; 70; 45; 25].
Definition inquiry_range : list number := [95; 80; 60; 35; 20].
Definition depthMix_range : list number := [95; 85; 70; 45].
Definition penalty_range : list number := [0; -10; -20; -25; -35].

(** The subscores that the snapshot of an input is computed from. *)
Definition subscores_of (input : FundabilityInput) : Subscores :=
  mkSubscores
    (calculateCreditScoreSubscore input.(credit_score))
    (calculateUtilizationSubscore input.(revolving_utilization_pct))
    (calculateDTISubscore input.(dti_pct))
    (calculateInquirySubscore input.(inquiries_6m))
    (calculateDepthMixSubscore input.(oldest_account_years) input.(open_tradelines))
    (calculatePenaltyPoints input.(bk_or_major_event) input.(recent_derogs_24m)).

(** *** The aggregate in exact arithmetic, and the tables of the binary64 computation *)

(** The weighted aggregate as the specification words it, over the
    rationals: the weighted sum of the five positive subscores, plus the
    penalty points, rounded to the nearest integer (a tie goes up) and
    clamped into [0, 100]. *)
Definition weighted_aggregate
  (credit utilization dti inquiry depthMix penalty : Q) : Z :=
  let weighted := ((30 # 100) * credit + (25 # 100) * utilization
                   + (20 # 100) * dti + (10 # 100) * inquiry
                   + (10 # 100) * depthMix)%Q in
  let raw := (weighted + penalty)%Q in
  let rounded := Qfloor (raw + (1 # 2)) in
  Z.max 0 (Z.min 100 rounded).

(** The exact aggregate of a record of subscores. *)
Definition aggregate_of (s : Subscores) : Z :=
  weighted_aggregate
    (F2Q s.(creditScoreSubscore)) (F2Q s.(utilizationSubscore))
    (F2Q s.(dtiSubscore)) (F2Q s.(inquirySubscore))
    (F2Q s.(depthMixSubscore)) (F2Q s.(penaltyPoints)).

Definition clamp (z : Z) : Z := Z.max 0 (Z.min 100 z).

(** The same aggregate over integer subscores. *)
Definition aggregate_Z (c u d i m p : Z) : Z :=
  clamp ((30 * c + 25 * u + 20 * d + 10 * i + 10 * m + 100 * p + 50) / 100)%Z.

(** The integers [0, 1, ..., n - 1]. *)
Definition zrange (n : nat) : list Z := map Z.of_nat (seq 0 n).

(** The rational [q] is the fraction [z / 1]. *)
Definition Q_is (q : Q) (z : Z) : bool :=
  (Qnum q =? z)%Z && (Qden q =? 1)%positive.

(** What is checked of a subscore value [x] weighted by [w] (the number of
    the literal [W / 100]): it is an integer multiple of 5 between 0 and
    95, and its product with [w] is the exact number of quarters. *)
Definition value_ok (w : number) (W : Z) (x : number) : bool :=
  let z := trunc x in
  Q_is (F2Q x) z && (z mod 5 =? 0)%Z && (0 <=? z)%Z && (z <=? 95)%Z
  && same (x *. w) (quarters (W * z / 25)).

(** And it adds exactly to every partial sum. *)
Definition stage_ok (w : number) (W : Z) (x : number) : bool :=
  let product := x *. w in
  value_ok w W x
  && forallb (fun n => same (quarters n +. product)
                            (quarters (n + W * trunc x / 25)))
             (zrange 401).

(** The last stage: the penalty is added, the sum rounded and clamped. *)
Definition final_ok (p : number) : bool :=
  let z := trunc p in
  Q_is (F2Q p) z && (-35 <=? z)%Z && (z <=? 0)%Z
  && forallb (fun n => same (Math_max 0 (Math_min 100 (Math_round (quarters n +. p))))
                            (Z2F (clamp ((n + 4 * z + 2) / 4))))
             (zrange 401).

(** The aggregate of the integer parts of the subscores. *)
Definition aggregate_points (s : Subscores) : Z :=
  aggregate_Z (trunc s.(creditScoreSubscore)) (trunc s.(utilizationSubscore))
              (trunc s.(dtiSubscore)) (trunc s.(inquirySubscore))
              (trunc s.(depthMixSubscore)) (trunc s.(penaltyPoints)).

(** Each subscore is one of the values its function can return. *)
Definition in_ranges (s : Subscores) : Prop :=
  In s.(creditScoreSubscore) credit_range
  /\ In s.(utilizationSubscore) utilization_range
  /\ In s.(dtiSubscore) dti_range
  /\ In s.(inquirySubscore) inquiry_range
  /\ In s.(depthMixSubscore) depthMix_range
  /\ In s.(penaltyPoints) penalty_range.

(** The integers below [n], each with its number. *)
Definition numbered (n : nat) : list (Z * number) :=
  map (fun z => (z, Z2F z)) (zrange n).

(** The numbers of a list are ordered as their integers. *)
Definition ordered_pairs (l : list (Z * number)) : bool :=
  forallb (fun a => forallb (fun b => implb (fst a <=? fst b)%Z (snd a <=. snd b)) l) l.

(** *** Inputs that differ in one field *)

Definition with_credit_score (a : FundabilityInput) (v : option number) :=
  mkInput a.(first_name) a.(last_name) a.(email) v
    a.(revolving_utilization_pct) a.(dti_pct) a.(inquiries_6m)
    a.(oldest_account_years) a.(open_tradelines) a.(recent_derogs_24m)
    a.(bk_or_major_event) a.(requested_amount) a.(primary_goal)
    a.(estimated_home_value) a.(mortgage_balance) a.(source)
    a.(external_contact_id).

Definition with_utilization (a : FundabilityInput) (v : number) :=
  mkInput a.(first_name) a.(last_name) a.(email) a.(credit_score)
    v a.(dti_pct) a.(inquiries_6m)
    a.(oldest_account_years) a.(open_tradelines) a.(recent_derogs_24m)
    a.(bk_or_major_event) a.(requested_amount) a.(primary_goal)
    a.(estimated_home_value) a.(mortgage_balance) a.(source)
    a.(external_contact_id).

Definition with_dti (a : FundabilityInput) (v : option number) :=
  mkInput a.(first_name) a.(last_name) a.(email) a.(credit_score)
    a.(revolving_utilization_pct) v a.(inquiries_6m)
    a.(oldest_account_years) a.(open_tradelines) a.(recent_derogs_24m)
    a.(bk_or_major_event) a.(requested_amount) a.(primary_goal)
    a.(estimated_home_value) a.(mortgage_balance) a.(source)
    a.(external_contact_id).

Definition with_inquiries (a : FundabilityInput) (v : number) :=
  mkInput a.(first_name) a.(last_name) a.(email) a.(credit_score)
    a.(revolving_utilization_pct) a.(dti_pct) v
    a.(oldest_account_years) a.(open_tradelines) a.(recent_derogs_24m)
    a.(bk_or_major_event) a.(requested_amount) a.(primary_goal)
    a.(estimated_home_value) a.(mortgage_balance) a.(source)
    a.(external_contact_id).

(** [improved a b]: the input [b] is the input [a] with one field changed
    for the better -- a utilization, a numeric DTI or an inquiry count that
    is not above the old one, or a numeric credit score not below it. *)
Inductive improved (a : FundabilityInput) : FundabilityInput -> Prop :=
| utilization_decreased (u : number) :
    u <=. a.(revolving_utilization_pct) = true ->
    improved a (with_utilization a u)
| dti_decreased (d d' : number) :
    a.(dti_pct) = Some d -> d' <=. d = true ->
    improved a (with_dti a (Some d'))
| inquiries_decreased (i : number) :
    i <=. a.(inquiries_6m) = true ->
    improved a (with_inquiries a i)
| credit_score_increased (c c' : number) :
    a.(credit_score) = Some c -> c' >=. c = true ->
    improved a (with_credit_score a (Some c')).

(** *** Tiers and funding ranges by integer tier *)

(** The tier of an integer score, and the two four-entry tables of funding
    ranges, by integer tier. *)
Definition tier_of_score (n : Z) : Z :=
  if (85 <=? n)%Z then 1%Z
  else if (70 <=? n)%Z then 2%Z
  else if (55 <=? n)%Z then 3%Z
  else 4%Z.

Definition current_range_table (tier : Z) : string :=
  match tier with
  | 1%Z => "Moderate–High ($50K–$150K+)"
  | 2%Z => "Moderate ($25K–$75K)"
  | 3%Z => "Low–Moderate ($10K–$50K)"
  | _ => "Low ($5K–$25K)"
  end.

Definition optimized_range_table (tier : Z) : string :=
  match tier with
  | 1%Z => "High ($75K–$200K+)"
  | 2%Z => "Moderate–High ($50K–$125K)"
  | 3%Z => "Moderate ($25K–$75K)"
  | _ => "Low–Moderate ($15K–$50K)"
  end.

(** One level up, towards tier 1 and not beyond. *)
Definition bumped (tier : Z) : Z := Z.max 1 (tier - 1).

(** The after-optimization range as the specification words it: triggered
    by the raw utilization percent, the raw DTI percent or the inquiry
    subscore. *)
Definition optimized_range_by_raw_percent
  (input : FundabilityInput) (s : FundabilitySnapshot) : string :=
  if (input.(revolving_utilization_pct) <=. 75)
     || match input.(dti_pct) with Some dti => dti <=. 70 | None => false end
     || (s.(subscores).(inquiry_subscore) <=. 60)
  then optimized_range_table (bumped (trunc s.(fundability_tier_numeric)))
  else s.(funding_range_now).

(** A prime profile: the end-to-end scenario of the specification. *)
Definition prime_profile : FundabilityInput :=
  {| first_name := "Ada"; last_name := "Prime"; email := "ada@example.com";
     credit_score := Some 720; revolving_utilization_pct := 25;
     dti_pct := Some 30; inquiries_6m := 1; oldest_account_years := 10;
     open_tradelines := 8; recent_derogs_24m := 0; bk_or_major_event := false;
     requested_amount := 50000; primary_goal := business_funding;
     estimated_home_value := JNull; mortgage_balance := JNull;
     source := JUndefined; external_contact_id := JUndefined |}.

(** A clock reading. *)
Definition noon : Clock := {| Date_toISOString := "2024-01-01T12:00:00.000Z" |}.

(** [determineTier] on the number of [n] gives the number of its tier. *)
Definition tier_ok (n : Z) : bool :=
  same (numeric (determineTier (Z2F n))) (Z2F (tier_of_score n)).

(** *** A body at the utilization boundary *)

(** A valid body whose utilization percent is 30, and the record that
    validation makes of it. *)
Definition utilization_30_body : record :=
  [ ("first_name", JStr "Uma"); ("last_name", JStr "Thirty");
    ("email", JStr "uma@example.com"); ("credit_score", JNum 700);
    ("revolving_utilization_pct", JNum 30); ("dti_pct", JNum 30);
    ("open_tradelines", JNum 5); ("requested_amount", JNum 20000);
    ("primary_goal", JStr "improve_credit") ].

Definition utilization_30_input : FundabilityInput :=
  {| first_name := "Uma"; last_name := "Thirty"; email := "uma@example.com";
     credit_score := Some 700; revolving_utilization_pct := 30;
     dti_pct := Some 30; inquiries_6m := 0; oldest_account_years := 0;
     open_tradelines := 5; recent_derogs_24m := 0; bk_or_major_event := false;
     requested_amount := 20000; primary_goal := improve_credit;
     estimated_home_value := JNull; mortgage_balance := JNull;
     source := JUndefined; external_contact_id := JUndefined |}.

(** *** Snapshots up to the timestamp *)

(** The snapshot [s] with another generation timestamp. *)
Definition with_generated_at (t : string) (s : FundabilitySnapshot)
  : FundabilitySnapshot :=
  {| fundability_score := s.(fundability_score);
     fundability_tier_numeric := s.(fundability_tier_numeric);
     fundability_tier_label := s.(fundability_tier_label);
     subscores := s.(subscores);
     key_strengths := s.(key_strengths);
     key_risks := s.(key_risks);
     high_impact_actions := s.(high_impact_actions);
     funding_range_now := s.(funding_range_now);
     funding_range_after_optimization := s.(funding_range_after_optimization);
     goal_path := s.(goal_path);
     flags := s.(flags);
     meta := {| version := s.(meta).(version); generated_at := t |} |}.

(** *** Sample profiles *)

(** The best profile there is: every positive subscore at 95, no penalty,
    a utilization percent of 5. *)
Definition best_profile_body : record :=
  [ ("first_name", JStr "Bea"); ("last_name", JStr "Best");
    ("email", JStr "bea@example.com"); ("credit_score", JNum 800);
    ("revolving_utilization_pct", JNum 5); ("dti_pct", JNum 10);
    ("inquiries_6m", JNum 0); ("oldest_account_years", JNum 15);
    ("open_tradelines", JNum 9); ("recent_derogs_24m", JNum 0);
    ("bk_or_major_event", JBool false); ("requested_amount", JNum 100000);
    ("primary_goal", JStr "startup_funding") ].

Definition best_profile : FundabilityInput :=
  {| first_name := "Bea"; last_name := "Best"; email := "bea@example.com";
     credit_score := Some 800; revolving_utilization_pct := 5;
     dti_pct := Some 10; inquiries_6m := 0; oldest_account_years := 15;
     open_tradelines := 9; recent_derogs_24m := 0; bk_or_major_event := false;
     requested_amount := 100000; primary_goal := startup_funding;
     estimated_home_value := JNull; mortgage_balance := JNull;
     source := JUndefined; external_contact_id := JUndefined |}.

(** A profile in which every rule of the actions generator fires. *)
Definition worst_profile : FundabilityInput :=
  {| first_name := "Will"; last_name := "Worst"; email := "will@example.com";
     credit_score := Some 640; revolving_utilization_pct := 95;
     dti_pct := Some 60; inquiries_6m := 9; oldest_account_years := 1;
     open_tradelines := 1; recent_derogs_24m := 4; bk_or_major_event := true;
     requested_amount := 5000; primary_goal := not_sure;
     estimated_home_value := JNull; mortgage_balance := JNull;
     source := JUndefined; external_contact_id := JUndefined |}.

(** Profiles in which exactly [k] rules of the actions generator fire, for
    [k] from 0 to 4 (and the worst profile beyond). *)
Definition profile_with_actions (k : nat) : FundabilityInput :=
  match k with
  | 0%nat => best_profile
  | 1%nat => with_inquiries best_profile 4
  | 2%nat => with_dti (with_inquiries best_profile 4) (Some 40)
  | 3%nat => with_utilization (with_dti (with_inquiries best_profile 4) (Some 40)) 35
  | 4%nat =>
      with_credit_score
        (with_utilization (with_dti (with_inquiries best_profile 4) (Some 40)) 35)
        (Some 640)
  | _ => worst_profile
  end.

(** *** The language of a regular expression, and well-formed addresses *)

(** The strings that a regular expression matches. *)
Inductive matches : Regex.regex -> string -> Prop :=
| matches_eps : matches Regex.Eps EmptyString
| matches_class (p : ascii -> bool) (c : ascii) :
    p c = true -> matches (Regex.Class p) (String c EmptyString)
| matches_cat (r1 r2 : Regex.regex) (s1 s2 : string) :
    matches r1 s1 -> matches r2 s2 -> matches (Regex.Cat r1 r2) (s1 ++ s2)
| matches_alt_l (r1 r2 : Regex.regex) (s : string) :
    matches r1 s -> matches (Regex.Alt r1 r2) s
| matches_alt_r (r1 r2 : Regex.regex) (s : string) :
    matches r2 s -> matches (Regex.Alt r1 r2) s
| matches_star_nil (r : Regex.regex) : matches (Regex.Star r) EmptyString
| matches_star_cons (r : Regex.regex) (s1 s2 : string) :
    matches r s1 -> matches (Regex.Star r) s2 -> matches (Regex.Star r) (s1 ++ s2).

(** A character that is neither whitespace nor an at sign. *)
Definition plain (c : ascii) : bool := negb (Regex.space c || Ascii.eqb c "@").

Fixpoint all_plain (s : string) : bool :=
  match s with
  | EmptyString => true
  | String c s => plain c && all_plain s
  end.

(** What stands before the first at sign of a string, and what stands
    after it (nothing when the string has no at sign). *)
Fixpoint before_at (s : string) : string :=
  match s with
  | EmptyString => EmptyString
  | String c s => if Ascii.eqb c "@" then EmptyString else String c (before_at s)
  end.

Fixpoint after_at (s : string) : option string :=
  match s with
  | EmptyString => None
  | String c s => if Ascii.eqb c "@" then Some s else after_at s
  end.

(** A dot with at least one character after it. *)
Fixpoint dot_then_more (s : string) : bool :=
  match s with
  | EmptyString => false
  | String c s =>
      (Ascii.eqb c "." && negb (s =? EmptyString)%string) || dot_then_more s
  end.

(** A dot with at least one character on each side. *)
Definition has_inner_dot (s : string) : bool :=
  match s with
  | EmptyString => false
  | String _ s => dot_then_more s
  end.

(** A well-formed e-mail address: no whitespace, exactly one at sign, at
    least one character before it and, after it, a dot with at least one
    character on each side. *)
Definition well_formed_email (s : string) : bool :=
  match after_at s with
  | None => false
  | Some domain =>
      negb (before_at s =? EmptyString)%string
      && all_plain (before_at s) && all_plain domain && has_inner_dot domain
  end.

(** *** The constraints of validation *)

(** The fields of the input record that section 3 of the specification
    constrains. *)
Inductive Field : Type :=
| first_name_field
| last_name_field
| email_field
| credit_score_field
| utilization_field
| dti_field
| inquiries_field
| oldest_account_field
| tradelines_field
| derogs_field
| major_event_field
| requested_amount_field
| primary_goal_field
| home_value_field
| mortgage_balance_field.

Definition field_name (f : Field) : string :=
  match f with
  | first_name_field => "first_name"
  | last_name_field => "last_name"
  | email_field => "email"
  | credit_score_field => "credit_score"
  | utilization_field => "revolving_utilization_pct"
  | dti_field => "dti_pct"
  | inquiries_field => "inquiries_6m"
  | oldest_account_field => "oldest_account_years"
  | tradelines_field => "open_tradelines"
  | derogs_field => "recent_derogs_24m"
  | major_event_field => "bk_or_major_event"
  | requested_amount_field => "requested_amount"
  | primary_goal_field => "primary_goal"
  | home_value_field => "estimated_home_value"
  | mortgage_balance_field => "mortgage_balance"
  end.

Definition all_fields : list Field :=
  [first_name_field; last_name_field; email_field; credit_score_field;
   utilization_field; dti_field; inquiries_field; oldest_account_field;
   tradelines_field; derogs_field; major_event_field; requested_amount_field;
   primary_goal_field; home_value_field; mortgage_balance_field].

(** The words of section 3, on the value of a field. *)

(** Absent: the record has no such field, or holds [null] there. *)
Definition absent (v : any) : bool :=
  match v with
  | JUndefined | JNull => true
  | _ => false
  end.

Definition is_string (v : any) : bool :=
  match v with JStr _ => true | _ => false end.

Definition is_boolean (v : any) : bool :=
  match v with JBool _ => true | _ => false end.

(** A number of which [p] holds. *)
Definition number_with (p : number -> bool) (v : any) : bool :=
  match v with JNum x => p x | _ => false end.

Definition is_number : any -> bool := number_with (fun _ => true).

(** [lo <= x <= hi], [0 <= x] and [0 < x]: none of them holds of NaN. *)
Definition between (lo hi x : number) : bool := (lo <=. x) && (x <=. hi).
Definition non_negative (x : number) : bool := 0 <=. x.
Definition positive (x : number) : bool := 0 <. x.

Definition non_negative_integer (x : number) : bool :=
  Number_isInteger x && non_negative x.

(** One of the seven goals. *)
Definition is_goal (v : any) : bool :=
  match v with
  | JStr s => existsb (String.eqb s) (map goal_name all_goals)
  | _ => false
  end.

(** Section 3 of the specification, field by field: the identity fields
    are strings; the credit score is an integer of 300 to 850, or absent;
    the utilization percent is of 0 to 100 (required); the DTI percent is
    of 0 to 100, or absent; the inquiries are a non-negative integer
    (default 0); the age of the oldest account is a non-negative number
    (default 0); the open tradelines are a non-negative integer (required);
    the derogatory marks are a non-negative integer (default 0); the flag
    is a boolean (default false); the requested amount is a positive number
    (required); the goal is one of the seven (required); the home value and
    the mortgage balance are numbers, or absent.  (The source tag and the
    contact identifier are free-form.) *)
Definition section3 (f : Field) (v : any) : bool :=
  match f with
  | first_name_field | last_name_field | email_field => is_string v
  | credit_score_field =>
      absent v || number_with (fun x => Number_isInteger x && between 300 850 x) v
  | utilization_field => number_with (between 0 100) v
  | dti_field => absent v || number_with (between 0 100) v
  | inquiries_field => absent v || number_with non_negative_integer v
  | oldest_account_field => absent v || number_with non_negative v
  | tradelines_field => number_with non_negative_integer v
  | derogs_field => absent v || number_with non_negative_integer v
  | major_event_field => absent v || is_boolean v
  | requested_amount_field => number_with positive v
  | primary_goal_field => is_goal v
  | home_value_field | mortgage_balance_field => absent v || is_number v
  end.

(** The constraints of section 3 that a record violates. *)
Definition section3_violations (body : record) : list Field :=
  filter (fun f => negb (section3 f body.[field_name f])) all_fields.

(** The claim as the specification states it, at one record: the
    validator returns a validated record when the record violates no
    constraint of section 3, and otherwise a list of errors with one entry
    per violated constraint. *)
Definition reports_section3 (body : record) : bool :=
  let violated := section3_violations body in
  match validateInput body with
  | {| valid := true; data := Some _; errors := None |} =>
      (List.length violated =? 0)%nat
  | {| valid := false; data := None; errors := Some messages |} =>
      negb (List.length violated =? 0)%nat
      && (List.length messages =? List.length violated)%nat
  | _ => false
  end.

(** *** The checks of the validator *)

(** [x] is NaN. *)
Definition is_nan (x : number) : bool :=
  match x with S754_nan => true | _ => false end.

(** [x] is not below [lo] and not above [hi]: this holds of NaN. *)
Definition not_outside (lo hi x : number) : bool :=
  negb (x <. lo) && negb (x >. hi).

Definition non_empty_string (v : any) : bool :=
  match v with JStr s => negb (s =? EmptyString)%string | _ => false end.

(** What the validator checks of each field: the names are non-empty
    strings and the e-mail is a well-formed address; the numbers of a
    range are not outside of it (so that NaN passes), and the credit score
    need not be an integer; the amount is not at or below 0, the age of
    the oldest account not below 0; the two optional extras are not
    checked; the other fields are checked as section 3 has them. *)
Definition checked (f : Field) (v : any) : bool :=
  match f with
  | first_name_field | last_name_field => non_empty_string v
  | email_field => match v with JStr s => well_formed_email s | _ => false end
  | credit_score_field => absent v || number_with (not_outside 300 850) v
  | utilization_field => number_with (not_outside 0 100) v
  | dti_field => absent v || number_with (not_outside 0 100) v
  | inquiries_field =>
      absent v || number_with (fun x => Number_isInteger x && negb (x <. 0)) v
  | oldest_account_field => absent v || number_with (fun x => negb (x <. 0)) v
  | tradelines_field => number_with (fun x => Number_isInteger x && negb (x <. 0)) v
  | derogs_field =>
      absent v || number_with (fun x => Number_isInteger x && negb (x <. 0)) v
  | major_event_field => absent v || is_boolean v
  | requested_amount_field => number_with (fun x => negb (x <=. 0)) v
  | primary_goal_field => is_goal v
  | home_value_field | mortgage_balance_field => true
  end.

(** The values on which a check may depart from section 3: an empty name,
    an e-mail that is a string and no well-formed address, a credit score
    that is no integer, NaN in the utilization, the DTI, the age of the
    oldest account or the requested amount, and whatever the two extras
    hold that is no number. *)
Definition excepted (f : Field) (v : any) : bool :=
  match f, v with
  | (first_name_field | last_name_field), JStr s => (s =? EmptyString)%string
  | email_field, JStr s => negb (well_formed_email s)
  | credit_score_field, JNum x => negb (Number_isInteger x)
  | (utilization_field | dti_field | oldest_account_field | requested_amount_field),
    JNum x => is_nan x
  | (home_value_field | mortgage_balance_field), _ => negb (absent v || is_number v)
  | _, _ => false
  end.

Definition utilization_message : string :=
  "revolving_utilization_pct is required and must be between 0 and 100".

Definition goal_message : string :=
  "primary_goal is required and must be one of: startup_funding, business_funding, debt_consolidation, improve_credit, lower_utilization, raise_score_fast, not_sure".

(** The error string of each check (the two extras have none). *)
Definition message (f : Field) : string :=
  match f with
  | first_name_field => "first_name is required and must be a string"
  | last_name_field => "last_name is required and must be a string"
  | email_field => "email is required and must be a valid email address"
  | credit_score_field => "credit_score must be between 300 and 850, or null"
  | utilization_field => utilization_message
  | dti_field => "dti_pct must be between 0 and 100, or null"
  | inquiries_field => "inquiries_6m must be a non-negative integer"
  | oldest_account_field => "oldest_account_years must be a non-negative number"
  | tradelines_field => "open_tradelines is required and must be a non-negative integer"
  | derogs_field => "recent_derogs_24m must be a non-negative integer"
  | major_event_field => "bk_or_major_event must be a boolean"
  | requested_amount_field => "requested_amount is required and must be a positive number"
  | primary_goal_field => goal_message
  | home_value_field | mortgage_balance_field => EmptyString
  end.

(** The checks that a record fails, in the order of the fields. *)
Definition failed_checks (body : record) : list Field :=
  filter (fun f => negb (checked f body.[field_name f])) all_fields.

(** The checks, pushed one after the other. *)
Definition collect (checks : list (bool * string)) : list string :=
  fold_left (fun errors check => push_if (fst check) (snd check) errors) checks [].

(** [needle] occurs in [hay]. *)
Fixpoint contains (needle hay : string) : bool :=
  String.prefix needle hay
  || match hay with
     | EmptyString => false
     | String _ rest => contains needle rest
     end.

(** The validated record holds what the record holds, each value at its
    own type and the defaults applied: 0 for the three counts that may be
    absent, [false] for the flag, [null] for an absent credit score, DTI,
    home value or mortgage balance. *)
Definition read_from (body : record) (input : FundabilityInput) : Prop :=
  body.["first_name"] = JStr input.(first_name)
  /\ body.["last_name"] = JStr input.(last_name)
  /\ body.["email"] = JStr input.(email)
  /\ body.["credit_score"] ?? JNull = of_nullable input.(credit_score)
  /\ body.["revolving_utilization_pct"] = JNum input.(revolving_utilization_pct)
  /\ body.["dti_pct"] ?? JNull = of_nullable input.(dti_pct)
  /\ body.["inquiries_6m"] ?? JNum 0 = JNum input.(inquiries_6m)
  /\ body.["oldest_account_years"] ?? JNum 0 = JNum input.(oldest_account_years)
  /\ body.["open_tradelines"] = JNum input.(open_tradelines)
  /\ body.["recent_derogs_24m"] ?? JNum 0 = JNum input.(recent_derogs_24m)
  /\ body.["bk_or_major_event"] ?? JBool false = JBool input.(bk_or_major_event)
  /\ body.["requested_amount"] = JNum input.(requested_amount)
  /\ body.["primary_goal"] = JStr (goal_name input.(primary_goal))
  /\ body.["estimated_home_value"] ?? JNull = input.(estimated_home_value)
  /\ body.["mortgage_balance"] ?? JNull = input.(mortgage_balance)
  /\ body.["source"] = input.(source)
  /\ body.["external_contact_id"] = input.(external_contact_id).

(** The record that validation builds is read off the body, with the
    defaults applied. *)
Definition built_from (body : record) (input : FundabilityInput) : Prop :=
  input.(first_name) = the_string body.["first_name"]
  /\ input.(last_name) = the_string body.["last_name"]
  /\ input.(email) = the_string body.["email"]
  /\ input.(credit_score) = the_nullable (body.["credit_score"] ?? JNull)
  /\ input.(revolving_utilization_pct) = the_number body.["revolving_utilization_pct"]
  /\ input.(dti_pct) = the_nullable (body.["dti_pct"] ?? JNull)
  /\ input.(inquiries_6m) = the_number (body.["inquiries_6m"] ?? JNum 0)
  /\ input.(oldest_account_years) = the_number (body.["oldest_account_years"] ?? JNum 0)
  /\ input.(open_tradelines) = the_number body.["open_tradelines"]
  /\ input.(recent_derogs_24m) = the_number (body.["recent_derogs_24m"] ?? JNum 0)
  /\ input.(bk_or_major_event) = the_boolean (body.["bk_or_major_event"] ?? JBool false)
  /\ input.(requested_amount) = the_number body.["requested_amount"]
  /\ input.(primary_goal) = the_goal body.["primary_goal"]
  /\ input.(estimated_home_value) = body.["estimated_home_value"] ?? JNull
  /\ input.(mortgage_balance) = body.["mortgage_balance"] ?? JNull
  /\ input.(source) = body.["source"]
  /\ input.(external_contact_id) = body.["external_contact_id"].

(** *** Records that depart from section 3 *)

(** A record that is valid but for its credit score of 700.5, and the
    record that validation makes of it. *)
Definition fractional_score_body : record :=
  [ ("first_name", JStr "Fay"); ("last_name", JStr "Half");
    ("email", JStr "fay@example.com"); ("credit_score", JNum (dec 1401 2));
    ("revolving_utilization_pct", JNum 20); ("dti_pct", JNum 30);
    ("open_tradelines", JNum 5); ("requested_amount", JNum 20000);
    ("primary_goal", JStr "improve_credit") ].

Definition fractional_score_input : FundabilityInput :=
  {| first_name := "Fay"; last_name := "Half"; email := "fay@example.com";
     credit_score := Some (dec 1401 2); revolving_utilization_pct := 20;
     dti_pct := Some 30; inquiries_6m := 0; oldest_account_years := 0;
     open_tradelines := 5; recent_derogs_24m := 0; bk_or_major_event := false;
     requested_amount := 20000; primary_goal := improve_credit;
     estimated_home_value := JNull; mortgage_balance := JNull;
     source := JUndefined; external_contact_id := JUndefined |}.

(** The same record with a utilization percent of 150. *)
Definition two_faults_body : record :=
  [ ("first_name", JStr "Fay"); ("last_name", JStr "Half");
    ("email", JStr "fay@example.com"); ("credit_score", JNum (dec 1401 2));
    ("revolving_utilization_pct", JNum 150); ("dti_pct", JNum 30);
    ("open_tradelines", JNum 5); ("requested_amount", JNum 20000);
    ("primary_goal", JStr "improve_credit") ].

(** *** An invalid record for the batch runner *)

(** The prime profile with a utilization percent of 150: a record of the
    input type that validation rejects. *)
Definition over_utilized : FundabilityInput :=
  with_utilization prime_profile 150.

(* ================================================================== *)
(** ** Properties of the number model *)
(* ================================================================== *)

Lemma same_eq (x y : number) : same x y = true -> x = y.
Proof.
  destruct x as [a|a| |a m e], y as [b|b| |b n f]; simpl; try discriminate;
    try reflexivity.
  - intros H. apply Bool.eqb_prop in H. now subst.
  - intros H. apply Bool.eqb_prop in H. now subst.
  - intros H. apply andb_prop in H. destruct H as [H He].
    apply andb_prop in H. destruct H as [Hs Hm].
    apply Bool.eqb_prop in Hs. apply Pos.eqb_eq in Hm. apply Z.eqb_eq in He.
    now subst.
Qed.

(** The comparison of numbers is transitive: the representations are
    ordered by sign, then exponent, then mantissa. *)
Lemma SFcompare_trans (x y z : number) (c1 c2 : comparison) :
  SFcompare x y = Some c1 -> SFcompare y z = Some c2 ->
  c1 <> Gt -> c2 <> Gt ->
  SFcompare x z = Some (match c1 with Eq => c2 | _ => Lt end).
Proof.
  destruct x as [a|a| |a m e], y as [b|b| |b n f], z as [c|c| |c p g];
    simpl; try discriminate;
    try (destruct a); try (destruct b); try (destruct c);
    intros H1 H2 N1 N2;
    injection H1 as H1; injection H2 as H2; subst c1 c2;
    try reflexivity; try (exfalso; apply N1; reflexivity);
    try (exfalso; apply N2; reflexivity);
    change (Pos.compare_cont Eq) with Pos.compare in *;
    revert N1 N2;
    repeat match goal with
           | |- context [Z.compare ?u ?v] => destruct (Z.compare_spec u v)
           | |- context [Pos.compare ?u ?v] => destruct (Pos.compare_spec u v)
           end;
    simpl; intros N1 N2; try reflexivity;
    try (exfalso; apply N1; reflexivity); try (exfalso; apply N2; reflexivity);
    exfalso; lia.
Qed.

Section NumberOrder.

Variables x y z : number.

Lemma le_trans : x <=. y = true -> y <=. z = true -> x <=. z = true.
Proof.
  unfold le, SFleb.
  destruct (SFcompare x y) as [c1|] eqn:H1; [|discriminate].
  destruct (SFcompare y z) as [c2|] eqn:H2; [|destruct c1; discriminate].
  intros N1 N2.
  rewrite (SFcompare_trans x y z c1 c2 H1 H2);
    destruct c1, c2; try discriminate; reflexivity.
Qed.

Lemma lt_le_trans : x <. y = true -> y <=. z = true -> x <. z = true.
Proof.
  unfold lt, le, SFltb, SFleb.
  destruct (SFcompare x y) as [c1|] eqn:H1; [|discriminate].
  destruct (SFcompare y z) as [c2|] eqn:H2; [|destruct c1; discriminate].
  intros N1 N2.
  rewrite (SFcompare_trans x y z c1 c2 H1 H2);
    destruct c1, c2; try discriminate; reflexivity.
Qed.

Lemma le_lt_trans : x <=. y = true -> y <. z = true -> x <. z = true.
Proof.
  unfold lt, le, SFltb, SFleb.
  destruct (SFcompare x y) as [c1|] eqn:H1; [|discriminate].
  destruct (SFcompare y z) as [c2|] eqn:H2; [|destruct c1; discriminate].
  intros N1 N2.
  rewrite (SFcompare_trans x y z c1 c2 H1 H2);
    destruct c1, c2; try discriminate; reflexivity.
Qed.

End NumberOrder.

(** [x >= y] is [y <= x], and [x > y] is [y < x]. *)
Lemma ge_le (x y : number) : x >=. y = (y <=. x).
Proof. reflexivity. Qed.


(** *** The model on known values *)

(** The weight [0.30] is the binary64 value [0x3FD3333333333333], and
    [0.10] is [0x3FB999999999999A]. *)
Example weight_credit_bits :
  weights.credit = S754_finite false 5404319552844595 (-54).
Proof. vm_compute. reflexivity. Qed.

Example weight_inquiry_bits :
  weights.inquiry = S754_finite false 7205759403792794 (-56).
Proof. vm_compute. reflexivity. Qed.

(** [0.1 + 0.2] is not [0.3], and prints as JavaScript prints it. *)
Example one_tenth_plus_two_tenths :
  (dec 1 10 +. dec 2 10 ===. dec 3 10) = false
  /\ Number_toString (dec 1 10 +. dec 2 10) = "0.30000000000000004".
Proof. vm_compute. split; reflexivity. Qed.

Example Number_toString_samples :
  map Number_toString [0; 45; -35; dec 555 10; dec 1 3; Z2F (10 ^ 21); dec 1 10000000]
  = ["0"; "45"; "-35"; "55.5"; "0.3333333333333333"; "1e+21"; "1e-7"].
Proof. vm_compute. reflexivity. Qed.

(** [Math.round] sends a tie up: 72.5 to 73, -0.5 to -0, -1.5 to -1. *)
Example Math_round_ties :
  map Math_round [dec 145 2; dec (-1) 2; dec (-3) 2; dec 149 2]
  = [73; S754_zero true; -1; 75].
Proof. vm_compute. reflexivity. Qed.

Example isValidEmail_samples :
  map isValidEmail ["john.smith@example.com"; "a@b.c"; "a@b"; "a b@c.d"; "a@@b.c"; "@b.c"]
  = [true; true; false; false; false; false].
Proof. vm_compute. reflexivity. Qed.

(** Sorting by descending priority keeps the order of equal priorities. *)
Example Array_sort_is_stable :
  map action
    (Array_sort (fun a b => b.(priority) -. a.(priority))
       [mkAction 80 "a"; mkAction 85 "b"; mkAction 100 "c"; mkAction 85 "d"])
  = ["c"; "b"; "d"; "a"].
Proof. vm_compute. reflexivity. Qed.

(** The end-to-end scenario of the specification: subscores 90, 90, 85, 95
    and 95, no penalty, a weighted sum of 85.5 and a score of 86. *)
Example prime_profile_scores_86 :
  subscores (calculateFundabilitySnapshot noon prime_profile)
  = {| credit_score_subscore := 90; utilization_subscore := 90;
       dti_subscore := 85; inquiry_subscore := 95; depth_mix_subscore := 95;
       penalty_points := 0 |}
  /\ fundability_score (calculateFundabilitySnapshot noon prime_profile) = 86
  /\ fundability_tier_numeric (calculateFundabilitySnapshot noon prime_profile) = 1.
Proof. vm_compute. repeat split; reflexivity. Qed.

(* ================================================================== *)
(** ** The values a subscore can take *)
(* ================================================================== *)

Ltac in_range :=
  repeat match goal with
         | |- context [if ?c then _ else _] => destruct c
         end;
  simpl; tauto.

Lemma credit_in_range score :
  In (calculateCreditScoreSubscore score) credit_range.
Proof. unfold calculateCreditScoreSubscore. destruct score; in_range. Qed.

Lemma utilization_in_range u :
  In (calculateUtilizationSubscore u) utilization_range.
Proof. unfold calculateUtilizationSubscore. in_range. Qed.

Lemma dti_in_range dti : In (calculateDTISubscore dti) dti_range.
Proof. unfold calculateDTISubscore. destruct dti; in_range. Qed.

Lemma inquiry_in_range i : In (calculateInquirySubscore i) inquiry_range.
Proof. unfold calculateInquirySubscore. in_range. Qed.

Lemma depthMix_in_range years lines :
  In (calculateDepthMixSubscore years lines) depthMix_range.
Proof. unfold calculateDepthMixSubscore. in_range. Qed.

Lemma penalty_in_range bk derogs :
  In (calculatePenaltyPoints bk derogs) penalty_range.
Proof.
  unfold calculatePenaltyPoints.
  destruct bk; destruct (derogs >=. 3); try destruct (derogs >=. 1);
    vm_compute; tauto.
Qed.

(** Reading the fields of a snapshot off the definition. *)
Ltac open_snapshot :=
  unfold calculateFundabilitySnapshot; cbv zeta;
  cbn [fundability_score fundability_tier_numeric fundability_tier_label
       subscores key_strengths key_risks high_impact_actions funding_range_now
       funding_range_after_optimization goal_path flags meta
       credit_score_subscore utilization_subscore dti_subscore inquiry_subscore
       depth_mix_subscore penalty_points missing_credit_score missing_utilization
       missing_dti high_risk_profile version generated_at].

Ltac open_subscores :=
  unfold subscores_of;
  cbn [creditScoreSubscore utilizationSubscore dtiSubscore inquirySubscore
       depthMixSubscore penaltyPoints].

Lemma fundability_score_of clock input :
  fundability_score (calculateFundabilitySnapshot clock input)
  = calculateWeightedScore (subscores_of input).
Proof. open_snapshot. reflexivity. Qed.

Lemma subscores_of_snapshot clock input :
  subscores (calculateFundabilitySnapshot clock input)
  = {| credit_score_subscore := creditScoreSubscore (subscores_of input);
       utilization_subscore := utilizationSubscore (subscores_of input);
       dti_subscore := dtiSubscore (subscores_of input);
       inquiry_subscore := inquirySubscore (subscores_of input);
       depth_mix_subscore := depthMixSubscore (subscores_of input);
       penalty_points := penaltyPoints (subscores_of input) |}.
Proof. open_snapshot. open_subscores. reflexivity. Qed.

(* ================================================================== *)
(** ** The aggregate in exact arithmetic *)
(* ================================================================== *)

(** The rounding of [weighted_aggregate] is to a nearest integer: the
    result is within one half of the raw value, and a tie goes up. *)
Lemma rounded_is_nearest (raw : Q) :
  (raw - (1 # 2) < inject_Z (Qfloor (raw + (1 # 2))))%Q
  /\ (inject_Z (Qfloor (raw + (1 # 2))) <= raw + (1 # 2))%Q.
Proof.
  split.
  - pose proof (Qlt_floor (raw + (1 # 2))) as H.
    rewrite inject_Z_plus in H. change (inject_Z 1) with 1%Q in H. lra.
  - apply Qfloor_le.
Qed.

Lemma weighted_aggregate_Z (c u d i m p : Z) :
  weighted_aggregate (inject_Z c) (inject_Z u) (inject_Z d) (inject_Z i)
                     (inject_Z m) (inject_Z p)
  = aggregate_Z c u d i m p.
Proof.
  unfold weighted_aggregate, aggregate_Z, clamp.
  do 2 f_equal.
  rewrite (Qfloor_comp _
    ((30 * c + 25 * u + 20 * d + 10 * i + 10 * m + 100 * p + 50)%Z # 100)).
  - reflexivity.
  - unfold Qeq, Qplus, Qmult, inject_Z. cbn [Qnum Qden].
    rewrite ?Pos2Z.inj_mul. ring.
Qed.

(** *** The binary64 computation, stage by stage

    Every subscore is a multiple of 5, so every partial sum of the weighted
    sum is a number of quarters; the tables below check, for every value a
    subscore can take and every number of quarters up to 100, that the
    product with the weight and the addition are exact. *)

Lemma in_zrange (n : nat) (z : Z) :
  (0 <= z < Z.of_nat n)%Z -> In z (zrange n).
Proof.
  intros H. unfold zrange. apply in_map_iff. exists (Z.to_nat z). split.
  - lia.
  - apply in_seq. lia.
Qed.

Lemma Q_is_eq q z : Q_is q z = true -> q = inject_Z z.
Proof.
  destruct q as [n d]. unfold Q_is, inject_Z. cbn [Qnum Qden]. intros H.
  apply andb_prop in H. destruct H as [Hn Hd].
  apply Z.eqb_eq in Hn. apply Pos.eqb_eq in Hd. now subst.
Qed.

Lemma credit_table : forallb (value_ok weights.credit 30) credit_range = true.
Proof. vm_compute. reflexivity. Qed.

Lemma utilization_table :
  forallb (stage_ok weights.utilization 25) utilization_range = true.
Proof. vm_compute. reflexivity. Qed.

Lemma dti_table : forallb (stage_ok weights.dti 20) dti_range = true.
Proof. vm_compute. reflexivity. Qed.

Lemma inquiry_table : forallb (stage_ok weights.inquiry 10) inquiry_range = true.
Proof. vm_compute. reflexivity. Qed.

Lemma depthMix_table : forallb (stage_ok weights.depthMix 10) depthMix_range = true.
Proof. vm_compute. reflexivity. Qed.

Lemma penalty_table : forallb final_ok penalty_range = true.
Proof. vm_compute. reflexivity. Qed.

Lemma value_ok_spec w W x :
  value_ok w W x = true ->
  F2Q x = inject_Z (trunc x) /\ (trunc x mod 5 = 0)%Z
  /\ (0 <= trunc x <= 95)%Z /\ x *. w = quarters (W * trunc x / 25).
Proof.
  unfold value_ok. cbv zeta. intros H.
  apply andb_prop in H. destruct H as [H Hsame].
  apply andb_prop in H. destruct H as [H Hhi].
  apply andb_prop in H. destruct H as [H Hlo].
  apply andb_prop in H. destruct H as [Hq Hmod].
  repeat split.
  - now apply Q_is_eq.
  - now apply Z.eqb_eq.
  - now apply Z.leb_le.
  - now apply Z.leb_le.
  - now apply same_eq.
Qed.

Lemma stage_ok_spec w W x n :
  stage_ok w W x = true -> (0 <= n <= 400)%Z ->
  quarters n +. x *. w = quarters (n + W * trunc x / 25).
Proof.
  unfold stage_ok. cbv zeta. intros H Hn.
  apply andb_prop in H. destruct H as [_ H].
  apply same_eq.
  apply (proj1 (forallb_forall _ _) H n). apply in_zrange.
    change (Z.of_nat 401) with 401%Z. lia.
Qed.

Lemma final_ok_spec p n :
  final_ok p = true -> (0 <= n <= 400)%Z ->
  F2Q p = inject_Z (trunc p) /\ (-35 <= trunc p <= 0)%Z
  /\ Math_max 0 (Math_min 100 (Math_round (quarters n +. p)))
     = Z2F (clamp ((n + 4 * trunc p + 2) / 4)).
Proof.
  unfold final_ok. cbv zeta. intros H Hn.
  apply andb_prop in H. destruct H as [H Hsame].
  apply andb_prop in H. destruct H as [H Hhi].
  apply andb_prop in H. destruct H as [Hq Hlo].
  repeat split.
  - now apply Q_is_eq.
  - now apply Z.leb_le.
  - now apply Z.leb_le.
  - apply same_eq. rename Hsame into H.
    apply (proj1 (forallb_forall _ _) H n). apply in_zrange.
    change (Z.of_nat 401) with 401%Z. lia.
Qed.

Lemma subscores_of_in_ranges input : in_ranges (subscores_of input).
Proof.
  unfold in_ranges, subscores_of. cbn [creditScoreSubscore utilizationSubscore
    dtiSubscore inquirySubscore depthMixSubscore penaltyPoints].
  auto 10 using credit_in_range, utilization_in_range, dti_in_range,
    inquiry_in_range, depthMix_in_range, penalty_in_range.
Qed.

Lemma points_bounds s :
  in_ranges s ->
  (0 <= trunc s.(creditScoreSubscore) <= 95)%Z
  /\ (0 <= trunc s.(utilizationSubscore) <= 95)%Z
  /\ (0 <= trunc s.(dtiSubscore) <= 95)%Z
  /\ (0 <= trunc s.(inquirySubscore) <= 95)%Z
  /\ (0 <= trunc s.(depthMixSubscore) <= 95)%Z
  /\ (-35 <= trunc s.(penaltyPoints) <= 0)%Z.
Proof.
  intros (Hc & Hu & Hd & Hi & Hm & Hp).
  pose proof (proj1 (forallb_forall _ _) credit_table _ Hc) as Tc.
  pose proof (proj1 (forallb_forall _ _) utilization_table _ Hu) as Tu.
  pose proof (proj1 (forallb_forall _ _) dti_table _ Hd) as Td.
  pose proof (proj1 (forallb_forall _ _) inquiry_table _ Hi) as Ti.
  pose proof (proj1 (forallb_forall _ _) depthMix_table _ Hm) as Tm.
  pose proof (proj1 (forallb_forall _ _) penalty_table _ Hp) as Tp.
  destruct (value_ok_spec _ _ _ Tc) as (_ & _ & Bc & _).
  destruct (value_ok_spec _ _ _ (proj1 (andb_prop _ _ Tu))) as (_ & _ & Bu & _).
  destruct (value_ok_spec _ _ _ (proj1 (andb_prop _ _ Td))) as (_ & _ & Bd & _).
  destruct (value_ok_spec _ _ _ (proj1 (andb_prop _ _ Ti))) as (_ & _ & Bi & _).
  destruct (value_ok_spec _ _ _ (proj1 (andb_prop _ _ Tm))) as (_ & _ & Bm & _).
  destruct (final_ok_spec _ 0 Tp) as (_ & Bp & _); [lia|].
  repeat split; lia.
Qed.

(** On every combination of subscore values the exact aggregate is the one
    of the integer subscores. *)
Lemma aggregate_of_points s :
  in_ranges s -> aggregate_of s = aggregate_points s.
Proof.
  intros (Hc & Hu & Hd & Hi & Hm & Hp).
  pose proof (proj1 (forallb_forall _ _) credit_table _ Hc) as Tc.
  pose proof (proj1 (forallb_forall _ _) utilization_table _ Hu) as Tu.
  pose proof (proj1 (forallb_forall _ _) dti_table _ Hd) as Td.
  pose proof (proj1 (forallb_forall _ _) inquiry_table _ Hi) as Ti.
  pose proof (proj1 (forallb_forall _ _) depthMix_table _ Hm) as Tm.
  pose proof (proj1 (forallb_forall _ _) penalty_table _ Hp) as Tp.
  destruct (value_ok_spec _ _ _ Tc) as (Qc & _).
  destruct (value_ok_spec _ _ _ (proj1 (andb_prop _ _ Tu))) as (Qu & _).
  destruct (value_ok_spec _ _ _ (proj1 (andb_prop _ _ Td))) as (Qd & _).
  destruct (value_ok_spec _ _ _ (proj1 (andb_prop _ _ Ti))) as (Qi & _).
  destruct (value_ok_spec _ _ _ (proj1 (andb_prop _ _ Tm))) as (Qm & _).
  destruct (final_ok_spec _ 0 Tp) as (Qp & _); [lia|].
  unfold aggregate_of, aggregate_points.
  rewrite Qc, Qu, Qd, Qi, Qm, Qp. apply weighted_aggregate_Z.
Qed.

(** On every combination of subscore values the binary64 computation of
    the engine lands on the exact aggregate. *)
Lemma weighted_score_points s :
  in_ranges s -> calculateWeightedScore s = Z2F (aggregate_points s).
Proof.
  intros (Hc & Hu & Hd & Hi & Hm & Hp).
  pose proof (proj1 (forallb_forall _ _) credit_table _ Hc) as Tc.
  pose proof (proj1 (forallb_forall _ _) utilization_table _ Hu) as Tu.
  pose proof (proj1 (forallb_forall _ _) dti_table _ Hd) as Td.
  pose proof (proj1 (forallb_forall _ _) inquiry_table _ Hi) as Ti.
  pose proof (proj1 (forallb_forall _ _) depthMix_table _ Hm) as Tm.
  pose proof (proj1 (forallb_forall _ _) penalty_table _ Hp) as Tp.
  destruct (value_ok_spec _ _ _ Tc) as (_ & Mc & Bc & Pc).
  destruct (value_ok_spec _ _ _ (proj1 (andb_prop _ _ Tu))) as (_ & Mu & Bu & _).
  destruct (value_ok_spec _ _ _ (proj1 (andb_prop _ _ Td))) as (_ & Md & Bd & _).
  destruct (value_ok_spec _ _ _ (proj1 (andb_prop _ _ Ti))) as (_ & Mi & Bi & _).
  destruct (value_ok_spec _ _ _ (proj1 (andb_prop _ _ Tm))) as (_ & Mm & Bm & _).
  unfold calculateWeightedScore, aggregate_points, aggregate_Z.
  rewrite Pc.
  rewrite (stage_ok_spec _ _ _ _ Tu) by (Z.div_mod_to_equations; lia).
  rewrite (stage_ok_spec _ _ _ _ Td) by (Z.div_mod_to_equations; lia).
  rewrite (stage_ok_spec _ _ _ _ Ti) by (Z.div_mod_to_equations; lia).
  rewrite (stage_ok_spec _ _ _ _ Tm) by (Z.div_mod_to_equations; lia).
  match goal with
  | |- context [quarters ?n +. _] =>
      destruct (final_ok_spec _ n Tp) as (_ & _ & Fp);
        [Z.div_mod_to_equations; lia|]
  end.
  rewrite Fp. do 2 f_equal.
  Z.div_mod_to_equations; lia.
Qed.

Lemma weighted_score_exact s :
  in_ranges s -> calculateWeightedScore s = Z2F (aggregate_of s).
Proof.
  intros H. rewrite (aggregate_of_points s H). now apply weighted_score_points.
Qed.

Lemma integers_ordered_101 : ordered_pairs (numbered 101) = true.
Proof. vm_compute. reflexivity. Qed.

Lemma ordered_pairs_spec l a b :
  ordered_pairs l = true -> In a l -> In b l ->
  (fst a <= fst b)%Z -> snd a <=. snd b = true.
Proof.
  unfold ordered_pairs. intros H Ia Ib Hab.
  pose proof (proj1 (forallb_forall _ _) H a Ia) as H1.
  pose proof (proj1 (forallb_forall _ _) H1 b Ib) as H2.
  cbv beta in H2. apply Z.leb_le in Hab. rewrite Hab in H2. exact H2.
Qed.

Lemma in_numbered (n : nat) (z : Z) :
  (0 <= z < Z.of_nat n)%Z -> In (z, Z2F z) (numbered n).
Proof.
  intros H. unfold numbered.
  apply (in_map (fun z => (z, Z2F z)) _ z). now apply in_zrange.
Qed.

Lemma Z2F_le (a b : Z) :
  (0 <= a <= b)%Z -> (b <= 100)%Z -> Z2F a <=. Z2F b = true.
Proof.
  intros Ha Hb.
  apply (ordered_pairs_spec (numbered 101) (a, Z2F a) (b, Z2F b)
           integers_ordered_101).
  - apply in_numbered. lia.
  - apply in_numbered. lia.
  - cbn [fst]. lia.
Qed.

Lemma clamp_bounds z : (0 <= clamp z <= 100)%Z.
Proof. unfold clamp. lia. Qed.

(* ================================================================== *)
(** ** The aggregate score *)
(* ================================================================== *)

(** C1.  For every input record (validated or not), the aggregate score of
    the snapshot is the weighted sum of the five positive subscores of that
    snapshot, with the weights 0.30 (credit), 0.25 (utilization), 0.20
    (DTI), 0.10 (inquiry) and 0.10 (depth/mix), plus the penalty points
    with no weight of their own, rounded to the nearest integer and clamped
    into [0, 100] -- all of it computed exactly, over the rationals. *)
Theorem C1_weighted_aggregate (clock : Clock) (input : FundabilityInput) :
  fundability_score (calculateFundabilitySnapshot clock input)
  = Z2F (weighted_aggregate
           (F2Q (credit_score_subscore (subscores (calculateFundabilitySnapshot clock input))))
           (F2Q (utilization_subscore (subscores (calculateFundabilitySnapshot clock input))))
           (F2Q (dti_subscore (subscores (calculateFundabilitySnapshot clock input))))
           (F2Q (inquiry_subscore (subscores (calculateFundabilitySnapshot clock input))))
           (F2Q (depth_mix_subscore (subscores (calculateFundabilitySnapshot clock input))))
           (F2Q (penalty_points (subscores (calculateFundabilitySnapshot clock input))))).
Proof.
  rewrite fundability_score_of, subscores_of_snapshot.
  cbn [credit_score_subscore utilization_subscore dti_subscore
       inquiry_subscore depth_mix_subscore penalty_points].
  rewrite (weighted_score_exact _ (subscores_of_in_ranges input)).
  reflexivity.
Qed.

Lemma all_below_95 (range : list number) :
  forallb (fun x => x <=. 95) range = true ->
  forall x, In x range -> x <=. 95 = true.
Proof. intros H x Hx. exact (proj1 (forallb_forall _ _) H x Hx). Qed.

(** C9.  For every input record, the aggregate score is the number of an
    integer between 0 and 90, and compares below 90 as a number: each of
    the five positive subscores is at most 95, so with weights that sum to
    0.95 and a penalty that is never positive the score 100 cannot be
    reached.  The bound is met by the best profile. *)
Theorem C9_score_at_most_90 (clock : Clock) (input : FundabilityInput) :
  (exists n : Z,
      fundability_score (calculateFundabilitySnapshot clock input) = Z2F n
      /\ (0 <= n <= 90)%Z)
  /\ fundability_score (calculateFundabilitySnapshot clock input) <=. 90 = true
  /\ credit_score_subscore (subscores (calculateFundabilitySnapshot clock input)) <=. 95 = true
  /\ utilization_subscore (subscores (calculateFundabilitySnapshot clock input)) <=. 95 = true
  /\ dti_subscore (subscores (calculateFundabilitySnapshot clock input)) <=. 95 = true
  /\ inquiry_subscore (subscores (calculateFundabilitySnapshot clock input)) <=. 95 = true
  /\ depth_mix_subscore (subscores (calculateFundabilitySnapshot clock input)) <=. 95 = true.
Proof.
  pose proof (subscores_of_in_ranges input) as R.
  pose proof (points_bounds _ R) as (Bc & Bu & Bd & Bi & Bm & Bp).
  assert (0 <= aggregate_points (subscores_of input) <= 90)%Z as B.
  { unfold aggregate_points, aggregate_Z, clamp.
    Z.div_mod_to_equations; lia. }
  rewrite fundability_score_of, (weighted_score_points _ R), subscores_of_snapshot.
  cbn [credit_score_subscore utilization_subscore dti_subscore
       inquiry_subscore depth_mix_subscore subscores_of creditScoreSubscore
       utilizationSubscore dtiSubscore inquirySubscore depthMixSubscore].
  split; [exists (aggregate_points (subscores_of input)); split; [reflexivity|exact B]|].
  split; [apply (Z2F_le _ 90%Z); lia|].
  repeat split.
  - apply (all_below_95 credit_range eq_refl), credit_in_range.
  - apply (all_below_95 utilization_range eq_refl), utilization_in_range.
  - apply (all_below_95 dti_range eq_refl), dti_in_range.
  - apply (all_below_95 inquiry_range eq_refl), inquiry_in_range.
  - apply (all_below_95 depthMix_range eq_refl), depthMix_in_range.
Qed.

(* ================================================================== *)
(** ** Monotonicity of the aggregate score *)
(* ================================================================== *)

Ltac split_ifs :=
  repeat match goal with
         | |- context [if ?c then _ else _] => destruct c eqn:?
         end.

Ltac by_values := solve [vm_compute; discriminate].

Lemma utilization_monotone (u u' : number) :
  u' <=. u = true ->
  (trunc (calculateUtilizationSubscore u)
   <= trunc (calculateUtilizationSubscore u'))%Z.
Proof.
  intros H. unfold calculateUtilizationSubscore. split_ifs;
    first [ by_values
          | match goal with
            | E1 : (u <. ?k) = true, E2 : (u' <. ?k) = false |- _ =>
                rewrite (le_lt_trans u' u k H E1) in E2; discriminate E2
            end ].
Qed.

Lemma dti_monotone (d d' : number) :
  d' <=. d = true ->
  (trunc (calculateDTISubscore (Some d))
   <= trunc (calculateDTISubscore (Some d')))%Z.
Proof.
  intros H. unfold calculateDTISubscore. split_ifs;
    first [ by_values
          | match goal with
            | E1 : (d <. ?k) = true, E2 : (d' <. ?k) = false |- _ =>
                rewrite (le_lt_trans d' d k H E1) in E2; discriminate E2
            end ].
Qed.

Lemma inquiry_monotone (i i' : number) :
  i' <=. i = true ->
  (trunc (calculateInquirySubscore i)
   <= trunc (calculateInquirySubscore i'))%Z.
Proof.
  intros H. unfold calculateInquirySubscore. split_ifs;
    first [ by_values
          | match goal with
            | E1 : (i <=. ?k) = true, E2 : (i' <=. ?k) = false |- _ =>
                rewrite (le_trans i' i k H E1) in E2; discriminate E2
            end ].
Qed.

Lemma credit_monotone (c c' : number) :
  c' >=. c = true ->
  (trunc (calculateCreditScoreSubscore (Some c))
   <= trunc (calculateCreditScoreSubscore (Some c')))%Z.
Proof.
  rewrite ge_le. intros H. unfold calculateCreditScoreSubscore. split_ifs;
    first [ by_values
          | match goal with
            | E1 : (c >=. ?k) = true, E2 : (c' >=. ?k) = false |- _ =>
                rewrite ge_le in E1, E2;
                rewrite (le_trans k c c' E1 H) in E2; discriminate E2
            end ].
Qed.

(** The integer aggregate grows with each positive subscore. *)
Lemma aggregate_Z_monotone (c u d i m p c' u' d' i' : Z) :
  (c <= c')%Z -> (u <= u')%Z -> (d <= d')%Z -> (i <= i')%Z ->
  (aggregate_Z c u d i m p <= aggregate_Z c' u' d' i' m p)%Z.
Proof.
  intros. unfold aggregate_Z, clamp.
  Z.div_mod_to_equations; lia.
Qed.

Lemma improved_points (a b : FundabilityInput) :
  improved a b ->
  (aggregate_points (subscores_of a) <= aggregate_points (subscores_of b))%Z.
Proof.
  intros [u H | d d' E H | i H | c c' E H];
    unfold aggregate_points, subscores_of;
    cbn [creditScoreSubscore utilizationSubscore dtiSubscore inquirySubscore
         depthMixSubscore penaltyPoints with_utilization with_dti with_inquiries
         with_credit_score credit_score revolving_utilization_pct dti_pct
         inquiries_6m oldest_account_years open_tradelines recent_derogs_24m
         bk_or_major_event];
    try rewrite E;
    apply aggregate_Z_monotone;
    auto using utilization_monotone, dti_monotone, inquiry_monotone,
      credit_monotone, Z.le_refl.
Qed.

(** C2.  Take two inputs that agree on every field but one, where the
    second has a utilization percent, a numeric DTI percent or an inquiry
    count that is lower than (or equal to) the one of the first, or a
    numeric credit score that is higher (or equal).  Then the aggregate
    score of the second is greater than or equal to the one of the first,
    whatever the clocks of the two calls. *)
Theorem C2_monotone (clock clock' : Clock) (a b : FundabilityInput) :
  improved a b ->
  fundability_score (calculateFundabilitySnapshot clock' b)
  >=. fundability_score (calculateFundabilitySnapshot clock a) = true.
Proof.
  intros H. rewrite ge_le, !fundability_score_of.
  rewrite !weighted_score_points by apply subscores_of_in_ranges.
  apply Z2F_le.
  - split; [apply clamp_bounds | now apply improved_points].
  - apply clamp_bounds.
Qed.

(* ================================================================== *)
(** ** Tiers and funding ranges *)
(* ================================================================== *)

Lemma tier_table : forallb tier_ok (zrange 101) = true.
Proof. vm_compute. reflexivity. Qed.

Lemma determineTier_numeric (n : Z) :
  (0 <= n <= 100)%Z ->
  numeric (determineTier (Z2F n)) = Z2F (tier_of_score n).
Proof.
  intros H. apply same_eq.
  apply (proj1 (forallb_forall _ _) tier_table n).
  apply in_zrange. change (Z.of_nat 101) with 101%Z. lia.
Qed.

Lemma tier_of_score_cases n :
  tier_of_score n = 1%Z \/ tier_of_score n = 2%Z
  \/ tier_of_score n = 3%Z \/ tier_of_score n = 4%Z.
Proof. unfold tier_of_score. split_ifs; tauto. Qed.

Lemma funding_ranges_of clock input :
  funding_range_now (calculateFundabilitySnapshot clock input)
  = calculateFundingRange (fundability_tier_numeric (calculateFundabilitySnapshot clock input))
  /\ funding_range_after_optimization (calculateFundabilitySnapshot clock input)
     = calculateOptimizedFundingRange
         (fundability_tier_numeric (calculateFundabilitySnapshot clock input))
         (utilization_subscore (subscores (calculateFundabilitySnapshot clock input)))
         (dti_subscore (subscores (calculateFundabilitySnapshot clock input)))
         (inquiry_subscore (subscores (calculateFundabilitySnapshot clock input))).
Proof. open_snapshot. split; reflexivity. Qed.

Lemma tier_numeric_of clock input :
  fundability_tier_numeric (calculateFundabilitySnapshot clock input)
  = numeric (determineTier (fundability_score (calculateFundabilitySnapshot clock input))).
Proof. open_snapshot. reflexivity. Qed.

Lemma snapshot_tier clock input :
  exists n : Z,
    (0 <= n <= 100)%Z
    /\ fundability_score (calculateFundabilitySnapshot clock input) = Z2F n
    /\ fundability_tier_numeric (calculateFundabilitySnapshot clock input)
       = Z2F (tier_of_score n).
Proof.
  exists (aggregate_points (subscores_of input)).
  assert (0 <= aggregate_points (subscores_of input) <= 100)%Z as B
    by apply clamp_bounds.
  rewrite tier_numeric_of, fundability_score_of.
  rewrite weighted_score_points by apply subscores_of_in_ranges.
  repeat split; try apply B. now apply determineTier_numeric.
Qed.

Lemma optimized_range_by_tier (t : Z) (u d i : number) :
  (1 <= t <= 4)%Z ->
  calculateFundingRange (Z2F t) = current_range_table t
  /\ calculateOptimizedFundingRange (Z2F t) u d i
     = if (u <=. 75) || (d <=. 70) || (i <=. 60)
       then optimized_range_table (bumped t)
       else current_range_table t.
Proof.
  intros H. unfold calculateOptimizedFundingRange.
  destruct ((u <=. 75) || (d <=. 70) || (i <=. 60));
    assert (t = 1 \/ t = 2 \/ t = 3 \/ t = 4)%Z as [->|[->|[->| ->]]] by lia;
    split; reflexivity.
Qed.

(** C3 (as amended).  For every input record the tier is one of 1..4, the
    current range is the entry of the first table at that tier, and the
    after-optimization range is decided by three subscores: if the
    utilization subscore is at most 75, or the DTI subscore at most 70, or
    the inquiry subscore at most 60, it is the entry of the second table
    one tier up (never above tier 1); otherwise it is the current range. *)
Theorem C3_optimized_range (clock : Clock) (input : FundabilityInput) :
  exists t : Z,
    (1 <= t <= 4)%Z
    /\ fundability_tier_numeric (calculateFundabilitySnapshot clock input) = Z2F t
    /\ funding_range_now (calculateFundabilitySnapshot clock input)
       = current_range_table t
    /\ funding_range_after_optimization (calculateFundabilitySnapshot clock input)
       = if (utilization_subscore (subscores (calculateFundabilitySnapshot clock input)) <=. 75)
            || (dti_subscore (subscores (calculateFundabilitySnapshot clock input)) <=. 70)
            || (inquiry_subscore (subscores (calculateFundabilitySnapshot clock input)) <=. 60)
         then optimized_range_table (bumped t)
         else funding_range_now (calculateFundabilitySnapshot clock input).
Proof.
  destruct (snapshot_tier clock input) as (n & Hn & _ & Ht).
  exists (tier_of_score n).
  assert (1 <= tier_of_score n <= 4)%Z as B
    by (destruct (tier_of_score_cases n) as [->|[->|[->| ->]]]; lia).
  destruct (funding_ranges_of clock input) as (Hnow & Hafter).
  rewrite Hafter, Hnow, Ht.
  generalize (utilization_subscore (subscores (calculateFundabilitySnapshot clock input))).
  generalize (dti_subscore (subscores (calculateFundabilitySnapshot clock input))).
  generalize (inquiry_subscore (subscores (calculateFundabilitySnapshot clock input))).
  intros i d u.
  destruct (optimized_range_by_tier (tier_of_score n) u d i B) as (H1 & H2).
  rewrite H1, H2. repeat split; try apply B.
Qed.

(** C3, as the specification states it, fails on the prime profile: its
    utilization percent is 25 (below 75), and yet the after-optimization
    range is the current range of tier 1 and not the tier 1 entry of the
    second table. *)
Lemma C3_counterexample :
  revolving_utilization_pct prime_profile <=. 75 = true
  /\ fundability_tier_numeric (calculateFundabilitySnapshot noon prime_profile) = 1
  /\ funding_range_after_optimization (calculateFundabilitySnapshot noon prime_profile)
     = "Moderate–High ($50K–$150K+)"
  /\ optimized_range_by_raw_percent
       prime_profile (calculateFundabilitySnapshot noon prime_profile)
     = "High ($75K–$200K+)"
  /\ funding_range_after_optimization (calculateFundabilitySnapshot noon prime_profile)
     <> optimized_range_by_raw_percent
          prime_profile (calculateFundabilitySnapshot noon prime_profile).
Proof. vm_compute. repeat split; discriminate. Qed.

(* ================================================================== *)
(** ** Subscore boundaries and penalty points *)
(* ================================================================== *)

(** C4 (as amended).  For every input whose revolving utilization percent
    is exactly 30, the utilization subscore is 75: the test for the
    subscore 90 is [utilization < 30], which 30 fails. *)
Theorem C4_utilization_30 (clock : Clock) (input : FundabilityInput) :
  revolving_utilization_pct input = 30 ->
  utilization_subscore (subscores (calculateFundabilitySnapshot clock input)) = 75.
Proof.
  intros H. open_snapshot. rewrite H. reflexivity.
Qed.

(** The validated record with a utilization percent of 30 scores 75. *)
Lemma C4_utilization_30_witness :
  revolving_utilization_pct utilization_30_input = 30
  /\ utilization_subscore
       (subscores (calculateFundabilitySnapshot noon utilization_30_input)) = 75.
Proof.
  split; [reflexivity | apply (C4_utilization_30 noon utilization_30_input); reflexivity].
Defined.

(** C4, as the specification states it, fails: the validated input with a
    utilization percent of exactly 30 has the utilization subscore 75,
    which is not 90. *)
Lemma C4_counterexample :
  validateInput utilization_30_body
  = {| valid := true; data := Some utilization_30_input; errors := None |}
  /\ revolving_utilization_pct utilization_30_input = 30
  /\ utilization_subscore
       (subscores (calculateFundabilitySnapshot noon utilization_30_input)) = 75
  /\ utilization_subscore
       (subscores (calculateFundabilitySnapshot noon utilization_30_input)) <> 90.
Proof. vm_compute. repeat split; discriminate. Qed.

(** The penalty for 0 to 4 derogatory marks, without and with the flag. *)
Example penalty_by_count :
  map (calculatePenaltyPoints false) [0; 1; 2; 3; 4] = [0; -10; -10; -20; -20]
  /\ map (calculatePenaltyPoints true) [0; 1; 2; 3; 4] = [-25; -35; -35; -35; -35].
Proof. vm_compute. split; reflexivity. Qed.

(** C5.  For every flag and every derogatory-mark count (any number), the
    penalty points are -25 for the flag, plus -20 when the count is at
    least 3 or -10 when it is at least 1 (0 otherwise), the total being
    raised to -35 when it is below; so the penalty is never below -35 (and
    never above 0). *)
Theorem C5_penalty_points (bkOrMajorEvent : bool) (recentDerogs : number) :
  calculatePenaltyPoints bkOrMajorEvent recentDerogs
  = Z2F (Z.max (-35)
           ((if bkOrMajorEvent then -25 else 0)
            + (if recentDerogs >=. 3 then -20
               else if recentDerogs >=. 1 then -10 else 0)))
  /\ (calculatePenaltyPoints bkOrMajorEvent recentDerogs <. -35) = false
  /\ (calculatePenaltyPoints bkOrMajorEvent recentDerogs >=. -35) = true
  /\ (calculatePenaltyPoints bkOrMajorEvent recentDerogs <=. 0) = true.
Proof.
  unfold calculatePenaltyPoints.
  destruct bkOrMajorEvent; destruct (recentDerogs >=. 3);
    destruct (recentDerogs >=. 1); vm_compute; repeat split.
Qed.

(* ================================================================== *)
(** ** The snapshot is a function of the input and the clock *)
(* ================================================================== *)

(** C6.  Two calls of the scoring function on the same input, at whatever
    times, return snapshots that differ at most in [meta.generated_at]:
    the second snapshot is the first one with the timestamp of the second
    call.  In particular the two are equal when the clock is frozen. *)
Theorem C6_pure_but_for_timestamp (clock clock' : Clock) (input : FundabilityInput) :
  calculateFundabilitySnapshot clock' input
  = with_generated_at clock'.(Date_toISOString)
      (calculateFundabilitySnapshot clock input)
  /\ generated_at (meta (calculateFundabilitySnapshot clock input))
     = clock.(Date_toISOString)
  /\ (clock'.(Date_toISOString) = clock.(Date_toISOString) ->
      calculateFundabilitySnapshot clock' input
      = calculateFundabilitySnapshot clock input).
Proof.
  unfold with_generated_at. open_snapshot.
  repeat split. intros ->. reflexivity.
Qed.

(** Two calls on the prime profile with the clock frozen at noon. *)
Lemma C6_pure_but_for_timestamp_witness :
  calculateFundabilitySnapshot noon prime_profile
  = calculateFundabilitySnapshot
      {| Date_toISOString := "2024-01-01T12:00:00.000Z" |} prime_profile.
Proof.
  apply (C6_pure_but_for_timestamp noon
           {| Date_toISOString := "2024-01-01T12:00:00.000Z" |} prime_profile).
  reflexivity.
Defined.

(* ================================================================== *)
(** ** The narrative lists *)
(* ================================================================== *)

Lemma actions_at_most_5 input s :
  (List.length (generateHighImpactActions input s) <= 5)%nat.
Proof.
  unfold generateHighImpactActions. cbv zeta.
  rewrite length_map. unfold slice0. apply firstn_le_length.
Qed.

Lemma strengths_not_empty c u d m : generateStrengths c u d m <> [].
Proof.
  unfold generateStrengths.
  destruct (c >=. 80); destruct (u >=. 80); destruct (d >=. 80);
    destruct (m >=. 80); discriminate.
Qed.

Lemma risks_not_empty u d i p : generateRisks u d i p <> [].
Proof.
  unfold generateRisks.
  destruct (u <=. 50); destruct (d <=. 45); destruct (i <=. 60);
    destruct (p <. 0); discriminate.
Qed.

(** C10.  The best profile is a validated input whose list of high-impact
    actions is empty, at any time of the call; for every input the list has
    at most 5 entries, while the lists of strengths and risks are never
    empty; and every length from 0 to 5 is the length of the list of some
    input.  The length of the actions list therefore ranges over 0 to 5. *)
Theorem C10_actions_may_be_empty :
  (validateInput best_profile_body
   = {| valid := true; data := Some best_profile; errors := None |}
   /\ forall clock : Clock,
        high_impact_actions (calculateFundabilitySnapshot clock best_profile) = [])
  /\ (forall (clock : Clock) (input : FundabilityInput),
        (List.length (high_impact_actions (calculateFundabilitySnapshot clock input)) <= 5)%nat
        /\ key_strengths (calculateFundabilitySnapshot clock input) <> []
        /\ key_risks (calculateFundabilitySnapshot clock input) <> [])
  /\ (forall k : nat,
        (k <= 5)%nat ->
        List.length (high_impact_actions
                       (calculateFundabilitySnapshot noon (profile_with_actions k)))
        = k).
Proof.
  split; [split|split].
  - vm_compute. reflexivity.
  - intros clock. open_snapshot. vm_compute. reflexivity.
  - intros clock input. open_snapshot.
    auto using actions_at_most_5, strengths_not_empty, risks_not_empty.
  - intros k Hk.
    do 6 (destruct k as [|k]; [vm_compute; reflexivity|]).
    exfalso. lia.
Qed.

(** The list of the worst profile has 5 entries. *)
Lemma C10_actions_may_be_empty_witness :
  List.length (high_impact_actions
                 (calculateFundabilitySnapshot noon (profile_with_actions 5)))
  = 5%nat.
Proof.
  apply (proj2 (proj2 C10_actions_may_be_empty) 5%nat). lia.
Defined.

(* ================================================================== *)
(** ** The e-mail pattern *)
(* ================================================================== *)


















(* ================================================================== *)
(** ** Validation collects every failed check *)
(* ================================================================== *)










(** The tests of the source, one by one, are the negated checks. *)
Section Checks.

Variable v : any.











End Checks.






(** Each kind of excepted value, with the outcome of the check and of the
    constraint of section 3: the validator is stricter on the identity
    fields and more lenient on the others. *)
Example checks_depart_from_section3 :
  map (fun fv => (checked (fst fv) (snd fv), section3 (fst fv) (snd fv)))
      [ (first_name_field, JStr EmptyString);
        (email_field, JStr "nobody");
        (credit_score_field, JNum (dec 1401 2));
        (credit_score_field, JNum NaN);
        (utilization_field, JNum NaN);
        (dti_field, JNum NaN);
        (oldest_account_field, JNum NaN);
        (requested_amount_field, JNum NaN);
        (home_value_field, JStr "a lot");
        (mortgage_balance_field, JBool true) ]
  = [ (false, true); (false, true); (true, false); (true, false); (true, false);
      (true, false); (true, false); (true, false); (true, false); (true, false) ].
Proof. vm_compute. reflexivity. Qed.




(* ================================================================== *)
(** ** The batch runner *)
(* ================================================================== *)

(** What [validateInput] returns has no [length]: the test that guards the
    [throw] of [processBatch] compares [undefined] with 0. *)
Lemma validation_result_length (r : ValidationResult) :
  get_any (result_object r) "length" = JUndefined.
Proof.
  destruct r as [v [d|] [e|]]; reflexivity.
Qed.

Lemma assess_scores (clock : Clock) (client : FundabilityInput) :
  assess clock client = inr (calculateFundabilitySnapshot clock client).
Proof.
  unfold assess. cbv zeta. rewrite validation_result_length. reflexivity.
Qed.

Lemma processClient_succeeds (clock : Clock) (c : FundabilityInput) :
  processClient clock c
  = {| status := "success";
       client := {| name := c.(first_name) ++ " " ++ c.(last_name);
                    client_email := c.(email) |};
       result := Some (calculateFundabilitySnapshot clock c);
       error := None |}.
Proof. unfold processClient. cbv zeta. rewrite assess_scores. reflexivity. Qed.

(** The batch runner never reports a failure: whatever the records, none
    is in the failed list and each has an entry in the success list. *)
Lemma processChunk_status clock i chunk :
  Forall (fun r => r.(status) = "success") (processChunk clock i chunk).
Proof.
  revert i. induction chunk as [|c chunk IH]; intros i; cbn [processChunk].
  - constructor.
  - constructor; [|apply IH]. rewrite processClient_succeeds. reflexivity.
Qed.

Lemma collect_successes (results success failed : list BatchEntry) :
  Forall (fun r => r.(status) = "success") results ->
  fold_left (fun '(success, failed) r =>
               if (r.(status) =? "success")%string
               then (push success r, failed)
               else (success, push failed r))
            results (success, failed)
  = ((success ++ results)%list, failed).
Proof.
  intros H. revert success. induction H as [|r results Hr _ IH]; intros success.
  - cbn. now rewrite app_nil_r.
  - cbn [fold_left]. rewrite Hr. cbn [String.eqb Ascii.eqb Bool.eqb].
    rewrite IH. unfold push. now rewrite <- app_assoc.
Qed.

Lemma processChunk_length clock i chunk :
  List.length (processChunk clock i chunk) = List.length chunk.
Proof.
  revert i. induction chunk as [|c chunk IH]; intros i; cbn [processChunk List.length].
  - reflexivity.
  - now rewrite IH.
Qed.

Lemma processChunks_no_failure clock chunks :
  forall i success failed,
    snd (processChunks clock i chunks success failed) = failed
    /\ List.length (fst (processChunks clock i chunks success failed))
       = (List.length success + List.length (List.concat chunks))%nat.
Proof.
  induction chunks as [|chunk chunks IH]; intros i success failed.
  - cbn. split; [reflexivity|lia].
  - cbn [processChunks List.concat].
    rewrite (collect_successes _ _ _ (processChunk_status clock i chunk)).
    destruct (IH (i + List.length chunk)%nat
                 (success ++ processChunk clock i chunk)%list failed) as [H1 H2].
    split; [exact H1|].
    rewrite H2, !length_app, processChunk_length. lia.
Qed.

Lemma split_chunks_concat {A : Type} (fuel concurrency : nat) :
  forall (clients : list A) (chunks : list (list A)),
    split_chunks fuel concurrency clients = Some chunks ->
    List.concat chunks = clients.
Proof.
  induction fuel as [|fuel IH]; intros clients chunks H.
  - destruct clients; [|discriminate]. cbn in H. injection H as <-. reflexivity.
  - destruct clients as [|c clients].
    + cbn in H. injection H as <-. reflexivity.
    + cbn [split_chunks] in H.
      destruct (split_chunks fuel concurrency (skipn concurrency (c :: clients)))
        as [rest|] eqn:E; [|discriminate].
      cbn [option_map] in H. injection H as <-.
      cbn [List.concat]. rewrite (IH _ _ E). apply firstn_skipn.
Qed.

Lemma processBatch_never_fails clock concurrency clients r :
  processBatch clock concurrency clients = Some r ->
  r.(failed) = [] /\ List.length r.(success) = List.length clients.
Proof.
  unfold processBatch.
  destruct (split_chunks (List.length clients) concurrency clients)
    as [chunks|] eqn:E; [|discriminate].
  destruct (processChunks_no_failure clock chunks 0%nat [] []) as [H1 H2].
  destruct (processChunks clock 0 chunks [] []) as [done undone].
  cbn [fst snd] in H1, H2. intros H. injection H as <-.
  cbn [failed success]. split; [exact H1|].
  rewrite H2, (split_chunks_concat _ _ _ _ E). reflexivity.
Qed.

(** C8, evaluated on a batch of three records of which the second fails
    validation: the invalid record is not in the failed list; it was passed
    to the scoring function and is reported as a success, with the snapshot
    computed from it. *)
Theorem C8_invalid_record_is_scored :
  validateInput (input_object over_utilized)
  = {| valid := false; data := None; errors := Some [utilization_message] |}
  /\ processBatch (fun _ => noon) 10 [prime_profile; over_utilized; best_profile]
     = Some {| success := [processClient noon prime_profile;
                           processClient noon over_utilized;
                           processClient noon best_profile];
               failed := [];
               summary := {| total := 3; successful := 3; failed_count := 0 |} |}
  /\ processClient noon over_utilized
     = {| status := "success";
          client := {| name := "Ada Prime"; client_email := "ada@example.com" |};
          result := Some (calculateFundabilitySnapshot noon over_utilized);
          error := None |}.
Proof.
  split; [vm_compute; reflexivity|]. split.
  - unfold processBatch.
    cbn [split_chunks List.length firstn skipn option_map processChunks
         processChunk Nat.add].
    rewrite !processClient_succeeds.
    cbn [fold_left status String.eqb Ascii.eqb Bool.eqb push app List.length].
    reflexivity.
  - apply processClient_succeeds.
Qed.

(** Lowering the utilization percent of the worst profile from 95 to 20
    does not lower its score. *)
Lemma C2_monotone_witness :
  improved worst_profile (with_utilization worst_profile 20)
  /\ fundability_score
       (calculateFundabilitySnapshot noon (with_utilization worst_profile 20))
     >=. fundability_score (calculateFundabilitySnapshot noon worst_profile) = true.
Proof.
  assert (improved worst_profile (with_utilization worst_profile 20)) as H
    by (apply utilization_decreased; reflexivity).
  split; [exact H|].
  apply (C2_monotone noon noon worst_profile (with_utilization worst_profile 20) H).
Defined.

